(** * The two-stage video generation pipeline of [services/geminiService.ts]

    A shallow embedding of [fetchAndCreateUrl] and [generateVideoFromImage]
    and of the values they exchange with the Veo client, the browser's
    [fetch] and the progress callback.

    The remote service and the browser are an interface ([Remote]) over an
    abstract world; every call the program makes is recorded, with the
    answer it got, in the list of events of the run.  The [while] loops of
    the source carry a bound on the number of iterations the model follows;
    a run that reaches the bound is [Pending]. *)

From Stdlib Require Import String Ascii List Bool ZArith Lia.
Import ListNotations.
Local Open Scope string_scope.
Local Open Scope list_scope.

Set Implicit Arguments.

(** ** JavaScript strings *)

Module JS.

(** [!s] is true of [undefined] and of the empty string: [truthy] keeps
    the string exactly when [if (s)] takes the branch. *)
Definition truthy (s : option string) : option string :=
  match s with
  | Some EmptyString => None
  | other => other
  end.

(** [a || b] on strings. *)
Definition orElse (a : option string) (b : string) : string :=
  match truthy a with
  | Some s => s
  | None => b
  end.

(** [s.includes(p)]: [p] occurs in [s] at some position. *)
Fixpoint includes (s p : string) : bool :=
  prefix p s ||
  match s with
  | EmptyString => false
  | String _ s' => includes s' p
  end.

(** [o?.f]. *)
Definition chain {A B : Type} (o : option A) (f : A -> option B) : option B :=
  match o with
  | Some a => f a
  | None => None
  end.

End JS.

Notation "o ?. f" := (JS.chain o f) (at level 50, left associativity).

(** ** Values of the service *)

(** A thrown value, of which the source reads only [message]. *)
Record JsError : Type := Error { message : option string }.

(** [new Error(text)]. *)
Definition newError (text : string) : JsError := Error (Some text).

Inductive AspectRatio : Type := ratio_16_9 | ratio_9_16.
Inductive Duration : Type := short | long.

(** The argument of [generateVideoFromImage], without the callback, which
    the model replaces by the [Progress] events of the run. *)
Record GenerateVideoParams : Type := {
  prompt : string;
  imageBase64 : string;
  imageMimeType : string;
  aspectRatio : AspectRatio;
  duration : Duration
}.

Record Image : Type := { imageBytes : string; mimeType : string }.

Record Video : Type := { uri : option string; videoBytes : option string }.

Record GeneratedVideo : Type := { video : option Video }.

Record GenerateVideosResponse : Type := {
  generatedVideos : option (list GeneratedVideo)
}.

(** A snapshot of a remote operation.  A snapshot without a [done] field
    reads as not done under [!operation.done]. *)
Record Operation : Type := {
  name : string;
  done : bool;
  response : option GenerateVideosResponse
}.

Record GenerateVideosConfig : Type := {
  numberOfVideos : Z;
  resolution : string;
  configAspectRatio : AspectRatio
}.

(** The object passed to [ai.models.generateVideos]. *)
Record GenerateVideosParameters : Type := {
  model : string;
  requestPrompt : string;
  requestImage : option Image;
  requestVideo : option Video;
  config : GenerateVideosConfig
}.

(** [new GoogleGenAI({ apiKey })]. *)
Record GoogleGenAI : Type := { clientApiKey : string }.

Definition Blob : Type := string.

(** What the source reads of a [fetch] response. *)
Record Response : Type := { ok : bool; statusText : string }.

(** ** Events of a run *)

Inductive Event : Type :=
| Progress (text : string)
| Submit (ai : GoogleGenAI) (request : GenerateVideosParameters)
         (reply : JsError + Operation)
| Wait (milliseconds : Z)
| Poll (ai : GoogleGenAI) (operation : Operation) (reply : JsError + Operation)
| Fetch (url : string) (reply : JsError + Response)
| ReadBlob (from : Response) (reply : JsError + Blob)
| CreateObjectURL (blob : Blob) (url : string)
| ConsoleError (error : JsError).

(** ** The collaborators *)

(** The calls the module makes to the outside, as transitions of an
    abstract world: the two calls of the Veo client, and the browser's
    [fetch], [response.blob()] and [URL.createObjectURL]. *)
Record Remote (World : Type) : Type := {
  generateVideos :
    GoogleGenAI -> GenerateVideosParameters -> World -> (JsError + Operation) * World;
  getVideosOperation :
    GoogleGenAI -> Operation -> World -> (JsError + Operation) * World;
  fetch : string -> World -> (JsError + Response) * World;
  blob : Response -> World -> (JsError + Blob) * World;
  createObjectURL : Blob -> World -> string * World
}.

(** ** Promises *)

(** How an awaited computation ends: with a value, with a thrown value, or
    not within the iterations followed. *)
Inductive Outcome (A : Type) : Type :=
| Resolved (value : A)
| Rejected (error : JsError)
| Pending.

Arguments Rejected {A} error.
Arguments Pending {A}.

(** A computation takes the world to an outcome, a new world and the events
    it caused, oldest first. *)
Definition Async (World A : Type) : Type :=
  World -> Outcome A * World * list Event.

Section Async.

Context {World : Type}.

Definition ret {A : Type} (a : A) : Async World A :=
  fun w => (Resolved a, w, []).

Definition throw {A : Type} (e : JsError) : Async World A :=
  fun w => (Rejected e, w, []).

Definition bind {A B : Type} (m : Async World A) (k : A -> Async World B)
  : Async World B :=
  fun w =>
    match m w with
    | (Resolved a, w1, evs1) =>
        let '(out, w2, evs2) := k a w1 in (out, w2, evs1 ++ evs2)
    | (Rejected e, w1, evs1) => (Rejected e, w1, evs1)
    | (Pending, w1, evs1) => (Pending, w1, evs1)
    end.

(** [try { body } catch (error) { handler }]. *)
Definition tryCatch {A : Type} (body : Async World A)
  (handler : JsError -> Async World A) : Async World A :=
  fun w =>
    match body w with
    | (Rejected e, w1, evs1) =>
        let '(out, w2, evs2) := handler e w1 in (out, w2, evs1 ++ evs2)
    | settled => settled
    end.

(** An effect that only shows in the events. *)
Definition emit (e : Event) : Async World unit :=
  fun w => (Resolved tt, w, [e]).

(** [await] of a call to a collaborator. *)
Definition call {A : Type} (f : World -> (JsError + A) * World)
  (record : JsError + A -> Event) : Async World A :=
  fun w =>
    let '(reply, w1) := f w in
    match reply with
    | inr a => (Resolved a, w1, [record reply])
    | inl e => (Rejected e, w1, [record reply])
    end.

End Async.

Notation "x <- m ;; k" := (bind m (fun x => k))
  (at level 61, m at next level, right associativity).
Notation "m ;; k" := (bind m (fun _ => k))
  (at level 61, right associativity).

(** ** The module *)

Inductive Kind : Type := RateLimited | InvalidCredential | MissingResult | Unknown.

(** The error of the [catch] block.  The source throws a plain [Error] with
    [text] as its message; [kind] names the branch that built it. *)
Record ClassifiedError : Type := { kind : Kind; text : string }.

Definition rateLimitText : string :=
  "Rate limit exceeded. You've made too many requests in a short period. Please wait a moment and try again.".
Definition invalidKeyText : string :=
  "API key is invalid or not found. Please re-select your API key.".
Definition unknownText : string :=
  "An unknown error occurred while communicating with the API.".

(** The three [if]s of the [catch] block. *)
Definition classify (error : JsError) : ClassifiedError :=
  match JS.truthy (message error) with
  | Some m =>
      if JS.includes m "RESOURCE_EXHAUSTED" || JS.includes m "429" then
        {| kind := RateLimited; text := rateLimitText |}
      else if JS.includes m "Requested entity was not found" then
        {| kind := InvalidCredential; text := invalidKeyText |}
      else
        {| kind := Unknown; text := JS.orElse (message error) unknownText |}
  | None =>
      {| kind := Unknown; text := JS.orElse (message error) unknownText |}
  end.

(** [operation.response?.generatedVideos?.[0]?.video]. *)
Definition firstVideo (operation : Operation) : option Video :=
  response operation ?. generatedVideos ?. (fun vs => nth_error vs 0) ?. video.

(** [operation.response?.generatedVideos?.[0]?.video?.uri]. *)
Definition downloadLinkOf (operation : Operation) : option string :=
  firstVideo operation ?. uri.

Definition fixedConfig (ratio : AspectRatio) : GenerateVideosConfig :=
  {| numberOfVideos := 1; resolution := "720p"; configAspectRatio := ratio |}.

(** The request of the first call to [generateVideos]. *)
Definition initialRequest (p : GenerateVideoParams) : GenerateVideosParameters :=
  {| model := "veo-3.1-fast-generate-preview";
     requestPrompt := prompt p;
     requestImage :=
       Some {| imageBytes := imageBase64 p; mimeType := imageMimeType p |};
     requestVideo := None;
     config := fixedConfig (aspectRatio p) |}.

(** The request of the second call to [generateVideos]. *)
Definition extensionRequest (p : GenerateVideoParams) (previousVideo : Video)
  : GenerateVideosParameters :=
  {| model := "veo-3.1-generate-preview";
     requestPrompt := prompt p;
     requestImage := None;
     requestVideo := Some previousVideo;
     config := fixedConfig (aspectRatio p) |}.

Definition pollInterval : Z := 20000.
Definition settleDelay : Z := 3000.

Definition msgWarmingUp : string := "Warming up the creativity engine...".
Definition msgGenerating : string :=
  "Generating initial scene... this can take a few minutes.".
Definition msgFinalizing : string := "Finalizing initial scene...".
Definition msgDownloading : string := "Downloading your video...".
Definition msgExtending : string :=
  "Extending video... this will take a few more minutes.".
Definition msgDownloadingExtended : string := "Downloading your extended video...".

Definition errNoApiKey : string := "API Key not found. Please select an API key.".
Definition errNoDownloadLink : string :=
  "Video generation failed: No download link was returned.".
Definition errNoInitialVideo : string := "Failed to get initial video for extension.".
Definition errNoExtendedLink : string :=
  "Video extension failed: No download link was returned.".

Section Service.

Context {World : Type}.
Variable remote : Remote World.

(** The callback of the caller, which the page sets to a state setter: it
    takes the text and does not throw. *)
Definition onProgress (text : string) : Async World unit :=
  emit (Progress text).

(** [await new Promise(resolve => setTimeout(resolve, ms))]. *)
Definition sleep (ms : Z) : Async World unit := emit (Wait ms).

Definition fetchAndCreateUrl (downloadLink apiKey : string) : Async World string :=
  let url := (downloadLink ++ "&key=" ++ apiKey)%string in
  response <- call (fetch remote url) (Fetch url) ;;
  if negb (ok response) then
    throw (newError ("Failed to download video: " ++ statusText response)%string)
  else
    videoBlob <- call (blob remote response) (ReadBlob response) ;;
    fun w =>
      let '(objectUrl, w1) := createObjectURL remote videoBlob w in
      (Resolved objectUrl, w1, [CreateObjectURL videoBlob objectUrl]).

(** The loop [while (!operation.done) { wait 20 s; operation = poll }],
    written twice in the source, followed for at most [fuel] iterations. *)
Fixpoint pollUntilDone (fuel : nat) (ai : GoogleGenAI) (operation : Operation)
  : Async World Operation :=
  if done operation then ret operation
  else
    match fuel with
    | O => fun w => (Pending, w, [])
    | S fuel' =>
        sleep pollInterval ;;
        next <- call (getVideosOperation remote ai operation) (Poll ai operation) ;;
        pollUntilDone fuel' ai next
    end.

(** The [try] block up to its [return fetchAndCreateUrl(link, apiKey)]:
    it yields the link the download is started with. *)
Definition tryBlock (fuel : nat) (ai : GoogleGenAI) (p : GenerateVideoParams)
  : Async World string :=
  onProgress msgWarmingUp ;;
  submitted <- call (generateVideos remote ai (initialRequest p))
                    (Submit ai (initialRequest p)) ;;
  onProgress msgGenerating ;;
  firstOperation <- pollUntilDone fuel ai submitted ;;
  match duration p with
  | long => onProgress msgFinalizing ;; sleep settleDelay
  | short => ret tt
  end ;;
  match duration p with
  | short =>
      match JS.truthy (downloadLinkOf firstOperation) with
      | None => throw (newError errNoDownloadLink)
      | Some downloadLink => onProgress msgDownloading ;; ret downloadLink
      end
  | long =>
      onProgress msgExtending ;;
      match firstVideo firstOperation with
      | None => throw (newError errNoInitialVideo)
      | Some previousVideo =>
          started <- call (generateVideos remote ai (extensionRequest p previousVideo))
                          (Submit ai (extensionRequest p previousVideo)) ;;
          extensionOperation <- pollUntilDone fuel ai started ;;
          match JS.truthy (downloadLinkOf extensionOperation) with
          | None => throw (newError errNoExtendedLink)
          | Some extendedDownloadLink =>
              onProgress msgDownloadingExtended ;; ret extendedDownloadLink
          end
      end
  end.

(** The [catch] block. *)
Definition catchBlock {A : Type} (error : JsError) : Async World A :=
  emit (ConsoleError error) ;;
  throw (newError (text (classify error))).

(** [generateVideoFromImage], with [process.env.API_KEY] as an argument.
    The promise of [fetchAndCreateUrl] is returned from the [try] block
    without [await]: the function has left the block when that promise
    settles, so a rejection of the download goes to the caller as it is. *)
Definition generateVideoFromImage (fuel : nat) (API_KEY : option string)
  (p : GenerateVideoParams) : Async World string :=
  match JS.truthy API_KEY with
  | None => throw (newError errNoApiKey)
  | Some apiKey =>
      let ai := {| clientApiKey := apiKey |} in
      link <- tryCatch (tryBlock fuel ai p) catchBlock ;;
      fetchAndCreateUrl link apiKey
  end.

End Service.

(** ** Scripted collaborators

    A world that is the list of replies still to be given, one list per
    call; [createObjectURL] names the object after its content. *)

Module Scripted.

Record Script : Type := {
  submitReplies : list (JsError + Operation);
  pollReplies : list (JsError + Operation);
  fetchReplies : list (JsError + Response);
  blobReplies : list (JsError + Blob)
}.

Definition noReply {A : Type} : JsError + A := inl (newError "no reply scripted").

Definition next {A : Type} (l : list (JsError + A)) : (JsError + A) * list (JsError + A) :=
  match l with
  | [] => (noReply, [])
  | r :: rest => (r, rest)
  end.

Definition remote : Remote Script :=
  {| generateVideos := fun _ _ s =>
       let '(r, rest) := next (submitReplies s) in
       (r, {| submitReplies := rest; pollReplies := pollReplies s;
              fetchReplies := fetchReplies s; blobReplies := blobReplies s |});
     getVideosOperation := fun _ _ s =>
       let '(r, rest) := next (pollReplies s) in
       (r, {| submitReplies := submitReplies s; pollReplies := rest;
              fetchReplies := fetchReplies s; blobReplies := blobReplies s |});
     fetch := fun _ s =>
       let '(r, rest) := next (fetchReplies s) in
       (r, {| submitReplies := submitReplies s; pollReplies := pollReplies s;
              fetchReplies := rest; blobReplies := blobReplies s |});
     blob := fun _ s =>
       let '(r, rest) := next (blobReplies s) in
       (r, {| submitReplies := submitReplies s; pollReplies := pollReplies s;
              fetchReplies := fetchReplies s; blobReplies := rest |});
     createObjectURL := fun b s => (("blob:" ++ b)%string, s) |}.

Definition running (n : string) : Operation :=
  {| name := n; done := false; response := None |}.

Definition finished (n : string) (v : option Video) : Operation :=
  {| name := n; done := true;
     response := Some {| generatedVideos := Some [ {| video := v |} ] |} |}.

Definition clip (link : string) : Video :=
  {| uri := Some link; videoBytes := None |}.

Definition request (d : Duration) : GenerateVideoParams :=
  {| prompt := "a fox running"; imageBase64 := "aGVsbG8="; imageMimeType := "image/png";
     aspectRatio := ratio_16_9; duration := d |}.

Definition key : option string := Some "k".
Definition ai : GoogleGenAI := {| clientApiKey := "k" |}.

Definition okResponse : Response := {| ok := true; statusText := "OK" |}.

(** A service that finishes the first job at the second poll. *)
Definition shortWorld : Script :=
  {| submitReplies := [inr (running "op1")];
     pollReplies := [inr (running "op1"); inr (finished "op1" (Some (clip "https://v/1?alt=media")))];
     fetchReplies := [inr okResponse];
     blobReplies := [inr "bytes"] |}.

(** A service that finishes the first job at the first poll and the
    extension at the second. *)
Definition longWorld : Script :=
  {| submitReplies := [inr (running "op1"); inr (running "op2")];
     pollReplies := [inr (finished "op1" (Some (clip "https://v/1?alt=media")));
                     inr (running "op2");
                     inr (finished "op2" (Some (clip "https://v/2?alt=media")))];
     fetchReplies := [inr okResponse];
     blobReplies := [inr "bytes"] |}.

(** A service whose first job is done at once and has no video. *)
Definition noVideoWorld : Script :=
  {| submitReplies := [inr (finished "op1" None)];
     pollReplies := [];
     fetchReplies := [];
     blobReplies := [] |}.

(** A service that does its part, and a download that is refused with a
    status text naming the code 429. *)
Definition refusedDownloadWorld : Script :=
  {| submitReplies := [inr (finished "op1" (Some (clip "https://v/1?alt=media")))];
     pollReplies := [];
     fetchReplies := [inr {| ok := false; statusText := "429 Too Many Requests" |}];
     blobReplies := [] |}.

(** The worlds of above once their replies are used up. *)
Definition exhausted : Script :=
  {| submitReplies := []; pollReplies := []; fetchReplies := []; blobReplies := [] |}.

End Scripted.

(** A service that needs as many polls as the number it is in. *)
Module Countdown.

Definition snapshot (finishedNow : bool) : Operation :=
  {| name := "countdown"; done := finishedNow; response := None |}.

Definition remote : Remote nat :=
  {| generateVideos := fun _ _ n => (inr (snapshot (Nat.eqb n 0)), n);
     getVideosOperation := fun _ _ n => (inr (snapshot (Nat.eqb (Nat.pred n) 0)), Nat.pred n);
     fetch := fun _ n => (inr {| ok := true; statusText := "OK" |}, n);
     blob := fun _ n => (inr "bytes", n);
     createObjectURL := fun b n => (("blob:" ++ b)%string, n) |}.

(** The events of [n] more rounds of the loop. *)
Fixpoint rounds (ai : GoogleGenAI) (n : nat) : list Event :=
  match n with
  | O => []
  | S k =>
      Wait pollInterval :: Poll ai (snapshot false) (inr (snapshot (Nat.eqb k 0)))
        :: rounds ai k
  end.

End Countdown.

(** ** Reading the events of a run *)

Fixpoint progressOf (evs : list Event) : list string :=
  match evs with
  | [] => []
  | Progress t :: rest => t :: progressOf rest
  | _ :: rest => progressOf rest
  end.

Fixpoint submissions (evs : list Event) : list GenerateVideosParameters :=
  match evs with
  | [] => []
  | Submit _ r _ :: rest => r :: submissions rest
  | _ :: rest => submissions rest
  end.

Fixpoint polled (evs : list Event) : list Operation :=
  match evs with
  | [] => []
  | Poll _ o _ :: rest => o :: polled rest
  | _ :: rest => polled rest
  end.

Fixpoint waits (evs : list Event) : list Z :=
  match evs with
  | [] => []
  | Wait ms :: rest => ms :: waits rest
  | _ :: rest => waits rest
  end.

Fixpoint downloads (evs : list Event) : list string :=
  match evs with
  | [] => []
  | Fetch u _ :: rest => u :: downloads rest
  | _ :: rest => downloads rest
  end.

(** The values that reached the [catch] block. *)
Fixpoint classified (evs : list Event) : list JsError :=
  match evs with
  | [] => []
  | ConsoleError x :: rest => x :: classified rest
  | _ :: rest => classified rest
  end.

(** The calls that leave the page. *)
Definition isRemoteCall (e : Event) : bool :=
  match e with
  | Submit _ _ _ | Poll _ _ _ | Fetch _ _ | ReadBlob _ _ => true
  | _ => false
  end.

(** The milestones of a run, in the order of the program text. *)
Definition milestones (d : Duration) : list string :=
  match d with
  | short => [msgWarmingUp; msgGenerating; msgDownloading]
  | long => [msgWarmingUp; msgGenerating; msgFinalizing; msgExtending;
             msgDownloadingExtended]
  end.

(** [l] is an initial segment of [m]. *)
Fixpoint isPrefix (l m : list string) : bool :=
  match l, m with
  | [], _ => true
  | x :: l', y :: m' => String.eqb x y && isPrefix l' m'
  | _ :: _, [] => false
  end.

(** [p] occurs in [s]. *)
Definition occursIn (p s : string) : Prop :=
  exists a b : string, s = (a ++ p ++ b)%string.

Section PollingRelation.

Context {World : Type}.
Variable remote : Remote World.
Variable ai : GoogleGenAI.

(** The loop without a bound: what it does from a snapshot and a world,
    up to the point where it returns, is rejected, or is still waiting
    for a snapshot that is not done. *)
Inductive polling : Operation -> World -> list Event -> Outcome Operation -> World -> Prop :=
| polling_done : forall op w,
    done op = true ->
    polling op w [] (Resolved op) w
| polling_waiting : forall op w,
    done op = false ->
    polling op w [] Pending w
| polling_failed : forall op w e w1,
    done op = false ->
    getVideosOperation remote ai op w = (inl e, w1) ->
    polling op w [Wait pollInterval; Poll ai op (inl e)] (Rejected e) w1
| polling_next : forall op w next w1 evs out w2,
    done op = false ->
    getVideosOperation remote ai op w = (inr next, w1) ->
    polling next w1 evs out w2 ->
    polling op w (Wait pollInterval :: Poll ai op (inr next) :: evs) out w2.

End PollingRelation.

(** [a] is in [l]. *)
Definition occurs (a : string) (l : list string) : bool :=
  existsb (String.eqb a) l.

(** Some [a] in [l] has a [b] after it. *)
Fixpoint precedes (a b : string) (l : list string) : bool :=
  match l with
  | [] => false
  | x :: rest => if String.eqb x a then occurs b rest else precedes a b rest
  end.

(** No text of [l] is in it twice. *)
Fixpoint noRepeat (l : list string) : bool :=
  match l with
  | [] => true
  | x :: rest => negb (occurs x rest) && noRepeat rest
  end.

(** [a] comes before [b] in [l]. *)
Definition before {A : Type} (a b : A) (l : list A) : Prop :=
  exists l1 l2 l3, l = l1 ++ a :: l2 ++ b :: l3.

Inductive Stage : Type := INITIAL | EXTENSION.

(** The message of the error thrown when a completed stage lacks what the
    run needs from it. *)
Definition missingResultText (d : Duration) (s : Stage) : string :=
  match s, d with
  | INITIAL, short => errNoDownloadLink
  | INITIAL, long => errNoInitialVideo
  | EXTENSION, _ => errNoExtendedLink
  end.

Section Runs.

Context {World : Type}.
Variable remote : Remote World.
Variable ai : GoogleGenAI.

(** One stage: the service accepts [request] and the loop follows the
    operation to a snapshot that is done. *)
Definition stage (request : GenerateVideosParameters) (w : World)
  (submitted : Operation) (loop : list Event) (completed : Operation) (w' : World)
  : Prop :=
  exists w1,
    generateVideos remote ai request w = (inr submitted, w1) /\
    polling remote ai submitted w1 loop (Resolved completed) w'.

(** A download that succeeds: the response is [ok], its body is read and
    named by an object URL. *)
Definition download (link apiKey : string) (w : World) (evs : list Event)
  (objectUrl : string) (w' : World) : Prop :=
  exists response w1 videoBlob w2,
    fetch remote (link ++ "&key=" ++ apiKey)%string w = (inr response, w1) /\
    ok response = true /\
    blob remote response w1 = (inr videoBlob, w2) /\
    createObjectURL remote videoBlob w2 = (objectUrl, w') /\
    evs = [Fetch (link ++ "&key=" ++ apiKey)%string (inr response);
           ReadBlob response (inr videoBlob);
           CreateObjectURL videoBlob objectUrl].

(** A run with one stage. *)
Definition shortRun (apiKey : string) (p : GenerateVideoParams) (w : World)
  (evs : list Event) (objectUrl : string) (w' : World) : Prop :=
  exists op1 loop1 completed1 w1 link evsD,
    stage (initialRequest p) w op1 loop1 completed1 w1 /\
    JS.truthy (downloadLinkOf completed1) = Some link /\
    download link apiKey w1 evsD objectUrl w' /\
    evs = Progress msgWarmingUp :: Submit ai (initialRequest p) (inr op1)
            :: Progress msgGenerating :: loop1
            ++ Progress msgDownloading :: evsD.

(** A run with two stages, the second on the video of the first. *)
Definition longRun (apiKey : string) (p : GenerateVideoParams) (w : World)
  (evs : list Event) (objectUrl : string) (w' : World) : Prop :=
  exists op1 loop1 completed1 w1 previousVideo op2 loop2 completed2 w2 link evsD,
    stage (initialRequest p) w op1 loop1 completed1 w1 /\
    firstVideo completed1 = Some previousVideo /\
    stage (extensionRequest p previousVideo) w1 op2 loop2 completed2 w2 /\
    JS.truthy (downloadLinkOf completed2) = Some link /\
    download link apiKey w2 evsD objectUrl w' /\
    evs = Progress msgWarmingUp :: Submit ai (initialRequest p) (inr op1)
            :: Progress msgGenerating :: loop1
            ++ Progress msgFinalizing :: Wait settleDelay :: Progress msgExtending
            :: Submit ai (extensionRequest p previousVideo) (inr op2) :: loop2
            ++ Progress msgDownloadingExtended :: evsD.

(** Stage [s] of the run completes and its operation lacks what the run
    reads from it: the download link, or, for the first stage of a long
    run, the video that the extension continues. *)
Definition completesWithoutResult (p : GenerateVideoParams) (w : World)
  (s : Stage) (polls : nat) (w' : World) : Prop :=
  match s, duration p with
  | INITIAL, short =>
      exists op1 loop1 completed1,
        stage (initialRequest p) w op1 loop1 completed1 w' /\
        JS.truthy (downloadLinkOf completed1) = None /\
        polls = length (polled loop1)
  | INITIAL, long =>
      exists op1 loop1 completed1,
        stage (initialRequest p) w op1 loop1 completed1 w' /\
        firstVideo completed1 = None /\
        polls = length (polled loop1)
  | EXTENSION, long =>
      exists op1 loop1 completed1 w1 previousVideo op2 loop2 completed2,
        stage (initialRequest p) w op1 loop1 completed1 w1 /\
        firstVideo completed1 = Some previousVideo /\
        stage (extensionRequest p previousVideo) w1 op2 loop2 completed2 w' /\
        JS.truthy (downloadLinkOf completed2) = None /\
        polls = Nat.max (length (polled loop1)) (length (polled loop2))
  | EXTENSION, short => False
  end.

End Runs.

(** ** More of the events *)

(** The object URLs a run has created. *)
Fixpoint objectUrls (evs : list Event) : list string :=
  match evs with
  | [] => []
  | CreateObjectURL _ u :: rest => u :: objectUrls rest
  | _ :: rest => objectUrls rest
  end.

(** The responses whose body a run has asked for. *)
Fixpoint bodyReads (evs : list Event) : list Response :=
  match evs with
  | [] => []
  | ReadBlob r _ :: rest => r :: bodyReads rest
  | _ :: rest => bodyReads rest
  end.

(** The client of each call to the service. *)
Fixpoint clients (evs : list Event) : list GoogleGenAI :=
  match evs with
  | [] => []
  | Submit ai _ _ :: rest => ai :: clients rest
  | Poll ai _ _ :: rest => ai :: clients rest
  | _ :: rest => clients rest
  end.

(** The time a run has asked to wait, in milliseconds. *)
Definition totalWait (evs : list Event) : Z := fold_right Z.add 0%Z (waits evs).

(** * The page: [App.tsx] *)

(** [s.split(sep)] for a separator of one character. *)
Fixpoint split (sep : ascii) (s : string) : list string :=
  match s with
  | EmptyString => [EmptyString]
  | String c rest =>
      if Ascii.eqb c sep then EmptyString :: split sep rest
      else
        match split sep rest with
        | piece :: pieces => String c piece :: pieces
        | [] => [String c EmptyString]
        end
  end.

(** [pieces.join(sep)]. *)
Fixpoint join (sep : ascii) (pieces : list string) : string :=
  match pieces with
  | [] => EmptyString
  | [piece] => piece
  | piece :: rest => (piece ++ String sep (join sep rest))%string
  end.

(** [c] is a character of [s]. *)
Fixpoint hasChar (c : ascii) (s : string) : bool :=
  match s with
  | EmptyString => false
  | String d rest => Ascii.eqb d c || hasChar c rest
  end.

(** What the page reads of a [File]. *)
Record File : Type := { fileName : string; fileType : string; fileBytes : Blob }.

Section Reader.

Context {World : Type}.

(** [reader.readAsDataURL(file)] up to the event that ends it: [load] with
    [reader.result], or [error] with its event. *)
Variable readAsDataURL : File -> World -> (JsError + string) * World.

(** [fileToBase64]: the promise resolves in [onload] with
    [result.split(',')[1]], which is [undefined] when the result has no
    comma, and rejects in [onerror] with the event. *)
Definition fileToBase64 (file : File) : Async World (option string) :=
  fun w =>
    match readAsDataURL file w with
    | (inr result, w1) => (Resolved (nth_error (split "," result) 1), w1, [])
    | (inl event, w1) => (Rejected event, w1, [])
    end.

End Reader.

Module App.

Inductive MediaType : Type := image | video.

(** The value of [extractFrameFromVideo]. *)
Record FrameData : Type := { base64 : string; mimeType : string }.

(** The state of the component, one field per [useState]. *)
Record State : Type := {
  apiKeySelected : bool;
  prompt : string;
  mediaFile : option File;
  mediaType : option MediaType;
  aspectRatio : AspectRatio;
  duration : Duration;
  isLoading : bool;
  loadingMessage : string;
  generatedVideoUrl : option string;
  error : option string;
  mediaPreviewUrl : option string
}.

Definition setApiKeySelected (v : bool) (s : State) : State :=
  {| apiKeySelected := v; prompt := prompt s; mediaFile := mediaFile s;
     mediaType := mediaType s; aspectRatio := aspectRatio s; duration := duration s;
     isLoading := isLoading s; loadingMessage := loadingMessage s;
     generatedVideoUrl := generatedVideoUrl s; error := error s;
     mediaPreviewUrl := mediaPreviewUrl s |}.

Definition setMediaFile (v : option File) (s : State) : State :=
  {| apiKeySelected := apiKeySelected s; prompt := prompt s; mediaFile := v;
     mediaType := mediaType s; aspectRatio := aspectRatio s; duration := duration s;
     isLoading := isLoading s; loadingMessage := loadingMessage s;
     generatedVideoUrl := generatedVideoUrl s; error := error s;
     mediaPreviewUrl := mediaPreviewUrl s |}.

Definition setMediaType (v : option MediaType) (s : State) : State :=
  {| apiKeySelected := apiKeySelected s; prompt := prompt s; mediaFile := mediaFile s;
     mediaType := v; aspectRatio := aspectRatio s; duration := duration s;
     isLoading := isLoading s; loadingMessage := loadingMessage s;
     generatedVideoUrl := generatedVideoUrl s; error := error s;
     mediaPreviewUrl := mediaPreviewUrl s |}.

Definition setIsLoading (v : bool) (s : State) : State :=
  {| apiKeySelected := apiKeySelected s; prompt := prompt s; mediaFile := mediaFile s;
     mediaType := mediaType s; aspectRatio := aspectRatio s; duration := duration s;
     isLoading := v; loadingMessage := loadingMessage s;
     generatedVideoUrl := generatedVideoUrl s; error := error s;
     mediaPreviewUrl := mediaPreviewUrl s |}.

Definition setLoadingMessage (v : string) (s : State) : State :=
  {| apiKeySelected := apiKeySelected s; prompt := prompt s; mediaFile := mediaFile s;
     mediaType := mediaType s; aspectRatio := aspectRatio s; duration := duration s;
     isLoading := isLoading s; loadingMessage := v;
     generatedVideoUrl := generatedVideoUrl s; error := error s;
     mediaPreviewUrl := mediaPreviewUrl s |}.

Definition setGeneratedVideoUrl (v : option string) (s : State) : State :=
  {| apiKeySelected := apiKeySelected s; prompt := prompt s; mediaFile := mediaFile s;
     mediaType := mediaType s; aspectRatio := aspectRatio s; duration := duration s;
     isLoading := isLoading s; loadingMessage := loadingMessage s;
     generatedVideoUrl := v; error := error s;
     mediaPreviewUrl := mediaPreviewUrl s |}.

Definition setError (v : option string) (s : State) : State :=
  {| apiKeySelected := apiKeySelected s; prompt := prompt s; mediaFile := mediaFile s;
     mediaType := mediaType s; aspectRatio := aspectRatio s; duration := duration s;
     isLoading := isLoading s; loadingMessage := loadingMessage s;
     generatedVideoUrl := generatedVideoUrl s; error := v;
     mediaPreviewUrl := mediaPreviewUrl s |}.

Definition setMediaPreviewUrl (v : option string) (s : State) : State :=
  {| apiKeySelected := apiKeySelected s; prompt := prompt s; mediaFile := mediaFile s;
     mediaType := mediaType s; aspectRatio := aspectRatio s; duration := duration s;
     isLoading := isLoading s; loadingMessage := loadingMessage s;
     generatedVideoUrl := generatedVideoUrl s; error := error s;
     mediaPreviewUrl := v |}.

(** The two helpers of the file as [handleGenerateClick] awaits them: a
    promise of a string and a promise of a frame, which settle or not. *)
Record Helpers (World : Type) : Type := {
  fileToBase64 : File -> World -> Outcome string * World;
  extractFrameFromVideo : File -> World -> Outcome FrameData * World
}.

(** [window.aistudio], each of whose functions may be missing. *)
Record AiStudio (World : Type) : Type := {
  hasSelectedApiKey : option (World -> (JsError + bool) * World);
  openSelectKey : option (World -> (JsError + unit) * World)
}.

Definition msgExtractingFrame : string := "Extracting first frame from video...".
Definition errNoInput : string := "Please provide a prompt and upload a file.".
Definition errInvalidMediaType : string := "Invalid media type selected.".
Definition errApiKey : string := "API Key error. Please re-select your API key.".
Definition errUnknown : string := "An unknown error occurred during video generation.".
Definition errUnsupportedFile : string :=
  "Unsupported file type. Please upload an image or a video.".

(** The [TypeError] of [e.message.includes] on a value without [message],
    with the text V8 gives it. *)
Definition typeErrorIncludes : JsError :=
  newError "Cannot read properties of undefined (reading 'includes')".

(** What [render] decides from the state: which screen, which panel, whether
    the generate button is disabled, and the error that is shown. *)
Inductive Panel : Type :=
| Loading (text : string)
| GeneratedVideo (src : string)
| ImagePreview (src : string)
| VideoPreview (src : string)
| Placeholder.

Inductive Screen : Type :=
| KeyScreen (shownError : option string)
| MainScreen (panel : Panel) (generateDisabled : bool) (shownError : option string).

Definition render (s : State) : Screen :=
  if negb (apiKeySelected s) then KeyScreen (JS.truthy (error s))
  else
    MainScreen
      (if isLoading s then Loading (loadingMessage s)
       else
         match JS.truthy (generatedVideoUrl s) with
         | Some src => GeneratedVideo src
         | None =>
             match JS.truthy (mediaPreviewUrl s) with
             | Some src =>
                 match mediaType s with
                 | Some image => ImagePreview src
                 | _ => VideoPreview src
                 end
             | None => Placeholder
             end
         end)
      (isLoading s
       || match JS.truthy (Some (prompt s)) with Some _ => false | None => true end
       || match mediaFile s with Some _ => false | None => true end)
      (JS.truthy (error s)).

Section Handlers.

Context {World : Type}.
Variable remote : Remote World.
Variable helpers : Helpers World.

(** The component state beside the world outside the page. *)
Definition Page : Type := (State * World)%type.

(** A call of a state setter. *)
Definition set (f : State -> State) : Async Page unit :=
  fun page => (Resolved tt, (f (fst page), snd page), []).

(** [await] of a promise of the outside. *)
Definition settle {A : Type} (promise : World -> Outcome A * World) : Async Page A :=
  fun page =>
    let '(out, w1) := promise (snd page) in (out, (fst page, w1), []).

(** A computation of the outside whose [onProgress] is the setter
    [callback]: each progress text is passed to it, in order. *)
Definition withProgress {A : Type} (callback : string -> State -> State)
  (m : Async World A) : Async Page A :=
  fun page =>
    let '(out, w1, evs) := m (snd page) in
    (out, (fold_left (fun s t => callback t s) (progressOf evs) (fst page), w1), evs).

(** [try { body } catch (e) { handler } finally { finalizer }]. *)
Definition tryCatchFinally {A : Type} (body : Async Page A)
  (handler : JsError -> Async Page A) (finalizer : Async Page unit) : Async Page A :=
  fun page =>
    match tryCatch body handler page with
    | (Pending, page1, evs1) => (Pending, page1, evs1)
    | (out, page1, evs1) =>
        match finalizer page1 with
        | (Resolved _, page2, evs2) => (out, page2, evs1 ++ evs2)
        | (Rejected e, page2, evs2) => (Rejected e, page2, evs1 ++ evs2)
        | (Pending, page2, evs2) => (Pending, page2, evs1 ++ evs2)
        end
    end.

(** The [catch] block of [handleGenerateClick]. *)
Definition showError (e : JsError) : Async Page unit :=
  match message e with
  | None => throw typeErrorIncludes
  | Some m =>
      if JS.includes m "API key" then
        set (setError (Some errApiKey)) ;; set (setApiKeySelected false)
      else set (setError (Some (JS.orElse (message e) errUnknown)))
  end.

(** [handleGenerateClick], which reads the state of the render it was made
    in; [process.env.API_KEY] is an argument, as for the service. *)
Definition handleGenerateClick (fuel : nat) (API_KEY : option string)
  : Async Page unit :=
  fun page =>
    let s := fst page in
    match JS.truthy (Some (prompt s)), mediaFile s with
    | Some _, Some file =>
        (set (setLoadingMessage EmptyString) ;;
         set (setIsLoading true) ;;
         set (setError None) ;;
         set (setGeneratedVideoUrl None) ;;
         tryCatchFinally
           (input <-
              match mediaType s with
              | Some video =>
                  set (setLoadingMessage msgExtractingFrame) ;;
                  frameData <- settle (extractFrameFromVideo helpers file) ;;
                  ret (base64 frameData, mimeType frameData)
              | Some image =>
                  imageBase64 <- settle (fileToBase64 helpers file) ;;
                  ret (imageBase64, fileType file)
              | None => throw (newError errInvalidMediaType)
              end ;;
            videoUrl <-
              withProgress setLoadingMessage
                (generateVideoFromImage remote fuel API_KEY
                   (Build_GenerateVideoParams (prompt s) (fst input) (snd input)
                      (aspectRatio s) (duration s))) ;;
            set (setGeneratedVideoUrl (Some videoUrl)))
           showError
           (set (setIsLoading false))) page
    | _, _ => set (setError (Some errNoInput)) page
    end.

(** [handleFileChange] on [event.target.files?.[0]]. *)
Definition handleFileChange (selected : option File) : Async Page unit :=
  match selected with
  | None => ret tt
  | Some file =>
      set (setError None) ;;
      set (setGeneratedVideoUrl None) ;;
      set (setMediaFile (Some file)) ;;
      supported <-
        (if String.prefix "image/" (fileType file) then
           set (setMediaType (Some image)) ;; ret true
         else if String.prefix "video/" (fileType file) then
           set (setMediaType (Some video)) ;; ret true
         else
           set (setMediaType None) ;;
           set (setError (Some errUnsupportedFile)) ;; ret false) ;;
      if supported : bool then
        fun page =>
          let '(objectUrl, w1) := createObjectURL remote (fileBytes file) (snd page) in
          (Resolved tt, (setMediaPreviewUrl (Some objectUrl) (fst page), w1),
           [CreateObjectURL (fileBytes file) objectUrl])
      else ret tt
  end.

(** [checkApiKey]; the warning it logs without [aistudio] is left out. *)
Definition checkApiKey (aistudio : option (AiStudio World)) : Async Page unit :=
  match aistudio ?. @hasSelectedApiKey World with
  | Some ask =>
      hasKey <- settle (fun w =>
                  match ask w with
                  | (inr b, w1) => (Resolved b, w1)
                  | (inl e, w1) => (Rejected e, w1)
                  end) ;;
      set (setApiKeySelected hasKey)
  | None => set (setApiKeySelected true)
  end.

(** [handleSelectKey]. *)
Definition handleSelectKey (aistudio : option (AiStudio World)) : Async Page unit :=
  match aistudio ?. @openSelectKey World with
  | Some open =>
      settle (fun w =>
        match open w with
        | (inr u, w1) => (Resolved u, w1)
        | (inl e, w1) => (Rejected e, w1)
        end) ;;
      set (setApiKeySelected true) ;;
      set (setError None)
  | None => ret tt
  end.

(** The state in which the work of [handleGenerateClick] starts. *)
Definition started (s : State) : State :=
  setGeneratedVideoUrl None
    (setError None (setIsLoading true (setLoadingMessage EmptyString s))).

(** The state once the progress texts of [evs] have been shown. *)
Definition progressed (evs : list Event) (s : State) : State :=
  fold_left (fun st t => setLoadingMessage t st) (progressOf evs) s.

(** The input of the service is ready in world [w1]: the helper for the
    kind of the file has resolved. *)
Definition inputReady (s : State) (file : File) (w : World)
  (input : string * string) (w1 : World) : Prop :=
  match mediaType s with
  | Some image =>
      fileToBase64 helpers file w = (Resolved (fst input), w1) /\
      snd input = fileType file
  | Some video =>
      extractFrameFromVideo helpers file w =
        (Resolved {| base64 := fst input; mimeType := snd input |}, w1)
  | None => False
  end.

(** The request the page makes of the service. *)
Definition paramsOf (s : State) (input : string * string) : GenerateVideoParams :=
  Build_GenerateVideoParams (prompt s) (fst input) (snd input)
    (aspectRatio s) (duration s).

End Handlers.

End App.

(** A page on the scripted service: helpers that give the bytes of the file
    as they are, and a frame of a video as a JPEG. *)
Module ScriptedPage.

Definition helpers : App.Helpers Scripted.Script :=
  {| App.fileToBase64 := fun file w => (Resolved (fileBytes file), w);
     App.extractFrameFromVideo := fun file w =>
       (Resolved {| App.base64 := fileBytes file; App.mimeType := "image/jpeg" |}, w) |}.

(** Helpers whose file reader fails with its event, which has no message. *)
Definition failingHelpers : App.Helpers Scripted.Script :=
  {| App.fileToBase64 := fun _ w => (Rejected (Error None), w);
     App.extractFrameFromVideo := fun _ w =>
       (Rejected (newError "Failed to load video file. Ensure it is a valid format."), w) |}.

Definition photo : File :=
  {| fileName := "fox.png"; fileType := "image/png"; fileBytes := "aGVsbG8=" |}.

Definition notes : File :=
  {| fileName := "notes.txt"; fileType := "text/plain"; fileBytes := "bm90ZXM=" |}.

(** The state after a prompt has been typed and [file] chosen. *)
Definition ready (file : File) (type : option App.MediaType) (d : Duration) : App.State :=
  {| App.apiKeySelected := true; App.prompt := "a fox running";
     App.mediaFile := Some file; App.mediaType := type;
     App.aspectRatio := ratio_16_9; App.duration := d;
     App.isLoading := false; App.loadingMessage := "";
     App.generatedVideoUrl := None; App.error := None;
     App.mediaPreviewUrl := Some "blob:preview" |}.

(** A reader that gives the data URL of the file. *)
Definition readAsDataURL (file : File) (w : Scripted.Script)
  : (JsError + string) * Scripted.Script :=
  (inr ("data:" ++ fileType file ++ ";base64," ++ fileBytes file)%string, w).

(** The page with a photo chosen, before the click. *)
Definition start : App.State := ready photo (Some App.image) short.

(** A service whose first job is done at once with a video that has bytes
    and no [uri], and whose second job does not answer. *)
Definition linklessVideo : Video := {| uri := None; videoBytes := Some "AAAA" |}.

Definition linklessWorld : Scripted.Script :=
  {| Scripted.submitReplies := [inr (Scripted.finished "op1" (Some linklessVideo))];
     Scripted.pollReplies := [];
     Scripted.fetchReplies := [];
     Scripted.blobReplies := [] |}.

(** A world in which only a refused download is left. *)
Definition refusingWorld : Scripted.Script :=
  {| Scripted.submitReplies := [];
     Scripted.pollReplies := [];
     Scripted.fetchReplies := [inr {| ok := false; statusText := "Forbidden" |}];
     Scripted.blobReplies := [] |}.

End ScriptedPage.

(** * Properties *)

(** ** Events *)

Lemma progressOf_app (a b : list Event) :
  progressOf (a ++ b) = progressOf a ++ progressOf b.
Proof.
  induction a as [|e a IH]; [reflexivity|].
  destruct e; simpl; rewrite IH; reflexivity.
Qed.

Lemma submissions_app (a b : list Event) :
  submissions (a ++ b) = submissions a ++ submissions b.
Proof.
  induction a as [|e a IH]; [reflexivity|].
  destruct e; simpl; rewrite IH; reflexivity.
Qed.

Lemma polled_app (a b : list Event) : polled (a ++ b) = polled a ++ polled b.
Proof.
  induction a as [|e a IH]; [reflexivity|].
  destruct e; simpl; rewrite IH; reflexivity.
Qed.

Lemma downloads_app (a b : list Event) :
  downloads (a ++ b) = downloads a ++ downloads b.
Proof.
  induction a as [|e a IH]; [reflexivity|].
  destruct e; simpl; rewrite IH; reflexivity.
Qed.

Lemma classified_app (a b : list Event) :
  classified (a ++ b) = classified a ++ classified b.
Proof.
  induction a as [|e a IH]; [reflexivity|].
  destruct e; simpl; rewrite IH; reflexivity.
Qed.

Lemma occurs_In (a : string) (l : list string) : occurs a l = true <-> In a l.
Proof.
  unfold occurs. rewrite existsb_exists. split.
  - intros (x & Hin & E). apply String.eqb_eq in E. now subst.
  - intros Hin. exists a. split; [exact Hin | apply String.eqb_refl].
Qed.

Lemma precedes_before (a b : string) (l : list string) :
  precedes a b l = true -> before a b l.
Proof.
  induction l as [|x rest IH]; simpl; [discriminate|].
  destruct (String.eqb_spec x a) as [->|_]; intros H.
  - apply occurs_In in H. destruct (in_split _ _ H) as (l2 & l3 & ->).
    exists [], l2, l3. reflexivity.
  - destruct (IH H) as (l1 & l2 & l3 & ->). exists (x :: l1), l2, l3. reflexivity.
Qed.

Lemma noRepeat_NoDup (l : list string) : noRepeat l = true -> NoDup l.
Proof.
  induction l as [|x rest IH]; simpl; intros H; [constructor|].
  apply andb_true_iff in H. destruct H as [H1 H2]. constructor; [|auto].
  intros Hin. apply occurs_In in Hin. rewrite Hin in H1. discriminate.
Qed.

Lemma isPrefix_firstn (l m : list string) :
  isPrefix l m = true -> exists n, l = firstn n m.
Proof.
  revert m. induction l as [|x l IH]; intros m H.
  - exists 0. reflexivity.
  - destruct m as [|y m]; simpl in H; [discriminate|].
    apply andb_true_iff in H. destruct H as [E H]. apply String.eqb_eq in E. subst y.
    destruct (IH m H) as [n ->]. exists (S n). reflexivity.
Qed.

(** ** Strings *)

Lemma prefix_app (p b : string) : prefix p (p ++ b) = true.
Proof.
  induction p as [|c p IH]; simpl.
  - destruct b; reflexivity.
  - destruct (ascii_dec c c) as [_|n]; [exact IH | now elim n].
Qed.

Lemma prefix_split (p s : string) :
  prefix p s = true -> exists b, s = (p ++ b)%string.
Proof.
  revert s. induction p as [|c p IH]; intros s H.
  - exists s. reflexivity.
  - destruct s as [|d s]; simpl in H; [discriminate|].
    destruct (ascii_dec c d) as [->|_]; [|discriminate].
    destruct (IH s H) as [b ->]. exists b. reflexivity.
Qed.

Lemma includes_occursIn (s p : string) :
  JS.includes s p = true <-> occursIn p s.
Proof.
  split.
  - induction s as [|c s IH]; cbn [JS.includes]; intros H.
    + rewrite orb_false_r in H. destruct (prefix_split _ _ H) as [b Hb].
      exists EmptyString, b. exact Hb.
    + apply orb_true_iff in H. destruct H as [H|H].
      * destruct (prefix_split _ _ H) as [b Hb]. exists EmptyString, b. exact Hb.
      * destruct (IH H) as (a & b & ->). exists (String c a), b. reflexivity.
  - intros (a & b & ->). induction a as [|c a IH].
    + change (JS.includes (p ++ b) p = true).
      destruct (p ++ b)%string eqn:E; cbn [JS.includes];
        rewrite <- E, prefix_app; reflexivity.
    + change (JS.includes (String c (a ++ p ++ b)) p = true).
      cbn [JS.includes]. rewrite IH. apply orb_true_r.
Qed.

Lemma includes_false (s p : string) :
  JS.includes s p = false <-> ~ occursIn p s.
Proof.
  rewrite <- includes_occursIn. destruct (JS.includes s p); split; intros H;
    try reflexivity; try discriminate; try (now elim H); congruence.
Qed.

(** ** The classifier *)

Lemma classify_rate_limited (m : string) :
  JS.includes m "RESOURCE_EXHAUSTED" || JS.includes m "429" = true ->
  classify (newError m) = {| kind := RateLimited; text := rateLimitText |}.
Proof.
  intros H. unfold classify, newError. cbn [message].
  destruct m as [|c m]; [discriminate H|].
  cbn [JS.truthy]. rewrite H. reflexivity.
Qed.

Lemma classify_unmatched (m : string) :
  JS.includes m "RESOURCE_EXHAUSTED" = false ->
  JS.includes m "429" = false ->
  JS.includes m "Requested entity was not found" = false ->
  classify (newError m) = {| kind := Unknown; text := JS.orElse (Some m) unknownText |}.
Proof.
  intros H1 H2 H3. unfold classify, newError. cbn [message].
  destruct m as [|c m]; [reflexivity|].
  cbn [JS.truthy]. rewrite H1, H2, H3. reflexivity.
Qed.

(** C5. The classifier applies its rules in order to the raw message: a
    message in which "RESOURCE_EXHAUSTED" or "429" occurs is [RateLimited]
    with the canned text, whatever else it contains; otherwise one in which
    "Requested entity was not found" occurs is [InvalidCredential] with the
    canned text; otherwise it is [Unknown] and keeps the raw message, or
    gets the fallback text when the raw message is empty.  The match is
    case sensitive, and a thrown value without a message gets the
    fallback too. *)
Theorem classify_priority (raw : string) :
  ((occursIn "RESOURCE_EXHAUSTED" raw \/ occursIn "429" raw) ->
     classify (newError raw) = {| kind := RateLimited; text := rateLimitText |}) /\
  (~ occursIn "RESOURCE_EXHAUSTED" raw -> ~ occursIn "429" raw ->
   occursIn "Requested entity was not found" raw ->
     classify (newError raw) = {| kind := InvalidCredential; text := invalidKeyText |}) /\
  (~ occursIn "RESOURCE_EXHAUSTED" raw -> ~ occursIn "429" raw ->
   ~ occursIn "Requested entity was not found" raw ->
     classify (newError raw) =
       {| kind := Unknown; text := if String.eqb raw "" then unknownText else raw |}) /\
  classify (newError "resource_exhausted") =
    {| kind := Unknown; text := "resource_exhausted" |} /\
  classify (Error None) = {| kind := Unknown; text := unknownText |}.
Proof.
  repeat split.
  - intros H. apply classify_rate_limited. apply orb_true_iff.
    destruct H as [H|H]; [left|right]; apply includes_occursIn; exact H.
  - intros H1 H2 H3.
    apply includes_false in H1. apply includes_false in H2.
    apply includes_occursIn in H3.
    unfold classify, newError. cbn [message].
    destruct raw as [|c m]; [discriminate H3|].
    cbn [JS.truthy]. rewrite H1, H2, H3. reflexivity.
  - intros H1 H2 H3.
    apply includes_false in H1. apply includes_false in H2. apply includes_false in H3.
    rewrite (classify_unmatched _ H1 H2 H3). destruct raw; reflexivity.
Qed.

(** The first rule wins over the second on a message that matches both. *)
Lemma classify_priority_witness :
  occursIn "429" "429: Requested entity was not found" /\
  classify (newError "429: Requested entity was not found") =
    {| kind := RateLimited; text := rateLimitText |}.
Proof.
  assert (H : occursIn "429" "429: Requested entity was not found").
  { exists "", ": Requested entity was not found". reflexivity. }
  split; [exact H|].
  apply (proj1 (classify_priority "429: Requested entity was not found")).
  right. exact H.
Defined.

(** ** The polling loop *)

Section PollingFacts.

Context {World : Type}.
Variable remote : Remote World.
Variable ai : GoogleGenAI.

Lemma pollUntilDone_done (fuel : nat) (op : Operation) (w : World) :
  done op = true -> pollUntilDone remote fuel ai op w = (Resolved op, w, []).
Proof.
  intros H. destruct fuel; simpl; rewrite H; reflexivity.
Qed.

Lemma pollUntilDone_step (fuel : nat) (op : Operation) (w : World) :
  done op = false ->
  pollUntilDone remote (S fuel) ai op w =
    match getVideosOperation remote ai op w with
    | (inl e, w1) => (Rejected e, w1, [Wait pollInterval; Poll ai op (inl e)])
    | (inr next, w1) =>
        let '(out, w2, evs) := pollUntilDone remote fuel ai next w1 in
        (out, w2, Wait pollInterval :: Poll ai op (inr next) :: evs)
    end.
Proof.
  intros H. cbn [pollUntilDone]. rewrite H.
  unfold bind, sleep, emit, call.
  destruct (getVideosOperation remote ai op w) as [[e|next] w1]; [reflexivity|].
  destruct (pollUntilDone remote fuel ai next w1) as [[[o|e|] w2] evs]; reflexivity.
Qed.

Lemma pollUntilDone_polling (fuel : nat) :
  forall op w out w' evs,
    pollUntilDone remote fuel ai op w = (out, w', evs) ->
    polling remote ai op w evs out w'.
Proof.
  induction fuel as [|fuel IH]; intros op w out w' evs H.
  - simpl in H. destruct (done op) eqn:D; inversion H; subst.
    + now apply polling_done.
    + now apply polling_waiting.
  - destruct (done op) eqn:D.
    + rewrite pollUntilDone_done in H by exact D. inversion H; subst.
      now apply polling_done.
    + rewrite pollUntilDone_step in H by exact D.
      destruct (getVideosOperation remote ai op w) as [[e|next] w1] eqn:G.
      * inversion H; subst. now apply polling_failed.
      * destruct (pollUntilDone remote fuel ai next w1) as [[o w2] evs2] eqn:R.
        inversion H; subst. eapply polling_next; eauto.
Qed.

(** A loop that settles does so within a number of rounds, and any
    larger bound follows it to the same end. *)
Lemma polling_pollUntilDone :
  forall op w evs out w',
    polling remote ai op w evs out w' ->
    out <> Pending ->
    forall fuel, length (polled evs) <= fuel ->
      pollUntilDone remote fuel ai op w = (out, w', evs).
Proof.
  induction 1 as [op w D|op w D|op w e w1 D G|op w next w1 evs out w2 D G P IH];
    intros NP fuel Hfuel.
  - now apply pollUntilDone_done.
  - now elim NP.
  - destruct fuel as [|fuel]; [simpl in Hfuel; lia|].
    rewrite pollUntilDone_step by exact D. rewrite G. reflexivity.
  - destruct fuel as [|fuel]; [simpl in Hfuel; lia|].
    rewrite pollUntilDone_step by exact D. rewrite G.
    rewrite (IH NP fuel); [reflexivity|]. simpl in Hfuel. lia.
Qed.

Lemma polling_resolved_done :
  forall op w evs out w',
    polling remote ai op w evs out w' ->
    forall op', out = Resolved op' -> done op' = true.
Proof.
  induction 1; intros op' E; try discriminate; eauto.
  inversion E; subst. assumption.
Qed.

(** Every wait of the loop is the fixed interval, there is one poll per
    wait, every polled snapshot is not done, and nothing else happens. *)
Lemma polling_events :
  forall op w evs out w',
    polling remote ai op w evs out w' ->
    waits evs = repeat pollInterval (length (polled evs)) /\
    Forall (fun o => done o = false) (polled evs) /\
    progressOf evs = [] /\ submissions evs = [] /\ downloads evs = [] /\
    classified evs = [] /\
    length evs = 2 * length (polled evs).
Proof.
  induction 1 as [op w D|op w D|op w e w1 D G|op w next w1 evs out w2 D G P IH];
    simpl; try (repeat split; auto; fail).
  destruct IH as (IH1 & IH2 & IH3 & IH4 & IH5 & IH6 & IH7).
  repeat split; auto.
  - now rewrite IH1.
  - lia.
Qed.

Lemma pollUntilDone_bound (fuel : nat) :
  forall op w out w' evs,
    pollUntilDone remote fuel ai op w = (out, w', evs) ->
    length (polled evs) <= fuel.
Proof.
  induction fuel as [|fuel IH]; intros op w out w' evs H.
  - simpl in H. destruct (done op); inversion H; subst; simpl; lia.
  - destruct (done op) eqn:D.
    + rewrite pollUntilDone_done in H by exact D. inversion H; subst. simpl. lia.
    + rewrite pollUntilDone_step in H by exact D.
      destruct (getVideosOperation remote ai op w) as [[e|next] w1].
      * inversion H; subst. simpl. lia.
      * destruct (pollUntilDone remote fuel ai next w1) as [[o w2] evs2] eqn:R.
        inversion H; subst. simpl. apply IH in R. lia.
Qed.

(** A loop that has settled within a bound settles the same way within any
    larger one. *)
Lemma pollUntilDone_more_fuel (fuel fuel' : nat) (op : Operation) (w : World)
  (out : Outcome Operation) (w' : World) (evs : list Event) :
  pollUntilDone remote fuel ai op w = (out, w', evs) ->
  out <> Pending ->
  fuel <= fuel' ->
  pollUntilDone remote fuel' ai op w = (out, w', evs).
Proof.
  intros H NP Hle. pose proof (pollUntilDone_bound _ _ _ H) as B.
  apply pollUntilDone_polling in H.
  apply (polling_pollUntilDone H NP). lia.
Qed.

End PollingFacts.

Lemma countdown_rounds (ai : GoogleGenAI) (n : nat) :
  forall fuel, n <= fuel ->
    pollUntilDone Countdown.remote fuel ai (Countdown.snapshot (Nat.eqb n 0)) n =
      (Resolved (Countdown.snapshot true), 0, Countdown.rounds ai n).
Proof.
  induction n as [|n IH]; intros fuel Hfuel.
  - apply pollUntilDone_done. reflexivity.
  - destruct fuel as [|fuel]; [lia|].
    rewrite pollUntilDone_step by reflexivity.
    cbn [getVideosOperation Countdown.remote Nat.pred].
    rewrite IH by lia. reflexivity.
Qed.

Lemma countdown_rounds_polled (ai : GoogleGenAI) (n : nat) :
  length (polled (Countdown.rounds ai n)) = n /\
  waits (Countdown.rounds ai n) = repeat pollInterval n.
Proof.
  induction n as [|n [IH1 IH2]]; [split; reflexivity|].
  simpl. rewrite IH1. split; [reflexivity|]. f_equal. exact IH2.
Qed.

(** C4. The polling loop: its events are rounds of one wait of the fixed
    20 seconds followed by one poll of the current snapshot, whose reply
    becomes the current snapshot; it returns only a snapshot that is done;
    a snapshot that is already done is returned as it is, with no wait and
    no poll; and the number of rounds has no cap: the loop follows the
    service for as many rounds as it takes, with the same interval. *)
Theorem pollUntilDone_spec {World : Type} (remote : Remote World)
  (ai : GoogleGenAI) (op : Operation) (w : World) :
  (forall fuel out w' evs,
     pollUntilDone remote fuel ai op w = (out, w', evs) ->
     polling remote ai op w evs out w' /\
     waits evs = repeat pollInterval (length (polled evs)) /\
     length evs = 2 * length (polled evs) /\
     Forall (fun o => done o = false) (polled evs) /\
     (forall op', out = Resolved op' -> done op' = true)) /\
  (forall fuel, done op = true ->
     pollUntilDone remote fuel ai op w = (Resolved op, w, [])) /\
  (forall evs out w',
     polling remote ai op w evs out w' -> out <> Pending ->
     forall fuel, length (polled evs) <= fuel ->
       pollUntilDone remote fuel ai op w = (out, w', evs)) /\
  (forall n fuel, n <= fuel ->
     pollUntilDone Countdown.remote fuel ai (Countdown.snapshot (Nat.eqb n 0)) n =
       (Resolved (Countdown.snapshot true), 0, Countdown.rounds ai n) /\
     length (polled (Countdown.rounds ai n)) = n /\
     waits (Countdown.rounds ai n) = repeat pollInterval n).
Proof.
  split; [|split; [|split]].
  - intros fuel out w' evs H.
    pose proof (pollUntilDone_polling _ _ _ _ _ H) as P.
    destruct (polling_events P) as (E1 & E2 & _ & _ & _ & _ & E7).
    repeat split; auto.
    intros op' E. exact (polling_resolved_done P E).
  - intros fuel D. now apply pollUntilDone_done.
  - intros evs out w' P NP fuel Hfuel. exact (polling_pollUntilDone P NP Hfuel).
  - intros n fuel Hfuel. split; [now apply countdown_rounds|].
    apply countdown_rounds_polled.
Qed.

(** A snapshot that is done comes back at once, and a running one after the
    two polls the scripted service needs. *)
Lemma pollUntilDone_spec_witness :
  pollUntilDone Scripted.remote 0 Scripted.ai
    (Scripted.finished "op1" None) Scripted.shortWorld =
    (Resolved (Scripted.finished "op1" None), Scripted.shortWorld, []) /\
  length (polled (snd (pollUntilDone Scripted.remote 5 Scripted.ai
                         (Scripted.running "op1") Scripted.shortWorld))) = 2.
Proof.
  split.
  - apply (proj1 (proj2 (pollUntilDone_spec Scripted.remote Scripted.ai
                           (Scripted.finished "op1" None) Scripted.shortWorld)) 0).
    reflexivity.
  - reflexivity.
Defined.

(** ** The pipeline, call by call *)

Ltac list_norm :=
  repeat (cbn [app]; rewrite <- ?app_assoc, ?app_nil_r); cbn [app].

Section PipelineFacts.

Context {World : Type}.
Variable remote : Remote World.

Lemma fetchAndCreateUrl_run (link apiKey : string) (w : World) :
  fetchAndCreateUrl remote link apiKey w =
    let url := (link ++ "&key=" ++ apiKey)%string in
    match fetch remote url w with
    | (inl e, w1) => (Rejected e, w1, [Fetch url (inl e)])
    | (inr response, w1) =>
        if ok response then
          match blob remote response w1 with
          | (inl e, w2) =>
              (Rejected e, w2, [Fetch url (inr response); ReadBlob response (inl e)])
          | (inr videoBlob, w2) =>
              let '(objectUrl, w3) := createObjectURL remote videoBlob w2 in
              (Resolved objectUrl, w3,
               [Fetch url (inr response); ReadBlob response (inr videoBlob);
                CreateObjectURL videoBlob objectUrl])
          end
        else
          (Rejected (newError ("Failed to download video: " ++ statusText response)%string),
           w1, [Fetch url (inr response)])
    end.
Proof.
  unfold fetchAndCreateUrl, bind, call, throw. cbv zeta.
  destruct (fetch remote _ w) as [[e|response] w1]; [reflexivity|].
  destruct (ok response); cbn [negb]; [|reflexivity].
  destruct (blob remote response w1) as [[e|videoBlob] w2]; [reflexivity|].
  destruct (createObjectURL remote videoBlob w2) as [objectUrl w3]. reflexivity.
Qed.

Lemma tryBlock_run (fuel : nat) (ai : GoogleGenAI) (p : GenerateVideoParams) (w : World) :
  tryBlock remote fuel ai p w =
    match generateVideos remote ai (initialRequest p) w with
    | (inl e, w1) =>
        (Rejected e, w1, [Progress msgWarmingUp; Submit ai (initialRequest p) (inl e)])
    | (inr op1, w1) =>
        let head := [Progress msgWarmingUp; Submit ai (initialRequest p) (inr op1);
                     Progress msgGenerating] in
        match pollUntilDone remote fuel ai op1 w1 with
        | (Rejected e, w2, loop1) => (Rejected e, w2, head ++ loop1)
        | (Pending, w2, loop1) => (Pending, w2, head ++ loop1)
        | (Resolved completed1, w2, loop1) =>
            match duration p with
            | short =>
                match JS.truthy (downloadLinkOf completed1) with
                | None => (Rejected (newError errNoDownloadLink), w2, head ++ loop1)
                | Some link =>
                    (Resolved link, w2, head ++ loop1 ++ [Progress msgDownloading])
                end
            | long =>
                let mid := head ++ loop1 ++ [Progress msgFinalizing; Wait settleDelay;
                                             Progress msgExtending] in
                match firstVideo completed1 with
                | None => (Rejected (newError errNoInitialVideo), w2, mid)
                | Some previousVideo =>
                    let request := extensionRequest p previousVideo in
                    match generateVideos remote ai request w2 with
                    | (inl e, w3) => (Rejected e, w3, mid ++ [Submit ai request (inl e)])
                    | (inr op2, w3) =>
                        let mid2 := mid ++ [Submit ai request (inr op2)] in
                        match pollUntilDone remote fuel ai op2 w3 with
                        | (Rejected e, w4, loop2) => (Rejected e, w4, mid2 ++ loop2)
                        | (Pending, w4, loop2) => (Pending, w4, mid2 ++ loop2)
                        | (Resolved completed2, w4, loop2) =>
                            match JS.truthy (downloadLinkOf completed2) with
                            | None =>
                                (Rejected (newError errNoExtendedLink), w4, mid2 ++ loop2)
                            | Some link =>
                                (Resolved link, w4,
                                 mid2 ++ loop2 ++ [Progress msgDownloadingExtended])
                            end
                        end
                    end
                end
            end
        end
    end.
Proof.
  unfold tryBlock, bind, call, onProgress, sleep, emit, throw, ret. cbv zeta.
  destruct (generateVideos remote ai (initialRequest p) w) as [[e|op1] w1];
    [reflexivity|].
  destruct (pollUntilDone remote fuel ai op1 w1) as [[[completed1|e|] w2] loop1];
    [|reflexivity|reflexivity].
  destruct (duration p).
  - destruct (JS.truthy (downloadLinkOf completed1)) as [link|]; list_norm;
      reflexivity.
  - destruct (firstVideo completed1) as [previousVideo|]; list_norm; [|reflexivity].
    destruct (generateVideos remote ai (extensionRequest p previousVideo) w2)
      as [[e|op2] w3]; list_norm; [reflexivity|].
    destruct (pollUntilDone remote fuel ai op2 w3) as [[[completed2|e|] w4] loop2];
      list_norm; try reflexivity.
    destruct (JS.truthy (downloadLinkOf completed2)) as [link|]; list_norm; reflexivity.
Qed.

Lemma generateVideoFromImage_run (fuel : nat) (API_KEY : option string)
  (p : GenerateVideoParams) (w : World) :
  generateVideoFromImage remote fuel API_KEY p w =
    match JS.truthy API_KEY with
    | None => (Rejected (newError errNoApiKey), w, [])
    | Some apiKey =>
        match tryBlock remote fuel {| clientApiKey := apiKey |} p w with
        | (Resolved link, w1, evs1) =>
            let '(out, w2, evs2) := fetchAndCreateUrl remote link apiKey w1 in
            (out, w2, evs1 ++ evs2)
        | (Rejected e, w1, evs1) =>
            (Rejected (newError (text (classify e))), w1, evs1 ++ [ConsoleError e])
        | (Pending, w1, evs1) => (Pending, w1, evs1)
        end
    end.
Proof.
  unfold generateVideoFromImage.
  destruct (JS.truthy API_KEY) as [apiKey|]; [|reflexivity].
  unfold bind, tryCatch, catchBlock, bind, emit, throw. cbv zeta.
  destruct (tryBlock remote fuel {| clientApiKey := apiKey |} p w)
    as [[[link|e|] w1] evs1]; reflexivity.
Qed.

(** A run that has settled within a bound on the loops settles the same
    way within any larger one. *)
Lemma tryBlock_more_fuel (fuel fuel' : nat) (ai : GoogleGenAI)
  (p : GenerateVideoParams) (w : World) (out : Outcome string) (w' : World)
  (evs : list Event) :
  tryBlock remote fuel ai p w = (out, w', evs) ->
  out <> Pending ->
  fuel <= fuel' ->
  tryBlock remote fuel' ai p w = (out, w', evs).
Proof.
  intros H NP Hle. rewrite tryBlock_run in H |- *. cbv zeta in H |- *.
  destruct (generateVideos remote ai (initialRequest p) w) as [[e|op1] w1];
    [exact H|].
  destruct (pollUntilDone remote fuel ai op1 w1) as [[[completed1|e|] w2] loop1] eqn:L.
  3: { inversion H; subst. now elim NP. }
  2: { rewrite (pollUntilDone_more_fuel _ _ _ _ L) by (discriminate || exact Hle). exact H. }
  rewrite (pollUntilDone_more_fuel _ _ _ _ L) by (discriminate || exact Hle).
  destruct (duration p); [exact H|].
  destruct (firstVideo completed1) as [previousVideo|]; [|exact H].
  destruct (generateVideos remote ai (extensionRequest p previousVideo) w2)
    as [[e|op2] w3]; [exact H|].
  destruct (pollUntilDone remote fuel ai op2 w3) as [[[completed2|e|] w4] loop2] eqn:L2.
  3: { inversion H; subst. now elim NP. }
  all: rewrite (pollUntilDone_more_fuel _ _ _ _ L2) by (discriminate || exact Hle); exact H.
Qed.

Lemma generateVideoFromImage_more_fuel (fuel fuel' : nat) (API_KEY : option string)
  (p : GenerateVideoParams) (w : World) (out : Outcome string) (w' : World)
  (evs : list Event) :
  generateVideoFromImage remote fuel API_KEY p w = (out, w', evs) ->
  out <> Pending ->
  fuel <= fuel' ->
  generateVideoFromImage remote fuel' API_KEY p w = (out, w', evs).
Proof.
  intros H NP Hle. rewrite generateVideoFromImage_run in H |- *.
  destruct (JS.truthy API_KEY) as [apiKey|]; [|exact H].
  destruct (tryBlock remote fuel {| clientApiKey := apiKey |} p w)
    as [[[link|e|] w1] evs1] eqn:B.
  3: { inversion H; subst. now elim NP. }
  all: rewrite (tryBlock_more_fuel _ _ _ B) by (discriminate || exact Hle); exact H.
Qed.

End PipelineFacts.

(** ** Runs of the pipeline *)

Section Claims.

Context {World : Type}.
Variable remote : Remote World.

Lemma pollUntilDone_quiet (fuel : nat) (ai : GoogleGenAI) (op : Operation) (w : World)
  (out : Outcome Operation) (w' : World) (evs : list Event) :
  pollUntilDone remote fuel ai op w = (out, w', evs) ->
  progressOf evs = [] /\ submissions evs = [] /\ downloads evs = [] /\
  classified evs = [].
Proof.
  intros H. apply pollUntilDone_polling in H.
  destruct (polling_events H) as (_ & _ & ? & ? & ? & ? & _). auto.
Qed.

Lemma polling_quiet (ai : GoogleGenAI) (op : Operation) (w : World)
  (out : Outcome Operation) (w' : World) (evs : list Event) :
  polling remote ai op w evs out w' ->
  progressOf evs = [] /\ submissions evs = [] /\ downloads evs = [] /\
  classified evs = [].
Proof.
  intros H. destruct (polling_events H) as (_ & _ & ? & ? & ? & ? & _). auto.
Qed.

Lemma fetchAndCreateUrl_quiet (link apiKey : string) (w : World)
  (out : Outcome string) (w' : World) (evs : list Event) :
  fetchAndCreateUrl remote link apiKey w = (out, w', evs) ->
  progressOf evs = [] /\ submissions evs = [] /\ polled evs = [] /\
  classified evs = [] /\
  downloads evs = [(link ++ "&key=" ++ apiKey)%string].
Proof.
  rewrite fetchAndCreateUrl_run. cbv zeta. intros H.
  destruct (fetch remote _ w) as [[e|response] w1].
  - inversion H; subst. repeat split.
  - destruct (ok response).
    + destruct (blob remote response w1) as [[e|videoBlob] w2].
      * inversion H; subst. repeat split.
      * destruct (createObjectURL remote videoBlob w2) as [objectUrl w3].
        inversion H; subst. repeat split.
    + inversion H; subst. repeat split.
Qed.

Lemma fetchAndCreateUrl_resolved (link apiKey : string) (w : World)
  (objectUrl : string) (w' : World) (evs : list Event) :
  fetchAndCreateUrl remote link apiKey w = (Resolved objectUrl, w', evs) <->
  download remote link apiKey w evs objectUrl w'.
Proof.
  rewrite fetchAndCreateUrl_run. cbv zeta. unfold download. split.
  - intros H.
    destruct (fetch remote _ w) as [[e|response] w1]; [discriminate|].
    destruct (ok response) eqn:O; [|discriminate].
    destruct (blob remote response w1) as [[e|videoBlob] w2] eqn:B; [discriminate|].
    destruct (createObjectURL remote videoBlob w2) as [u w3] eqn:C.
    inversion H; subst. exists response, w1, videoBlob, w2. auto.
  - intros (response & w1 & videoBlob & w2 & F & O & B & C & ->).
    rewrite F, O, B, C. reflexivity.
Qed.

Ltac events_norm :=
  repeat first
    [ progress cbn [app submissions downloads progressOf classified polled length]
    | rewrite submissions_app | rewrite downloads_app | rewrite progressOf_app
    | rewrite classified_app | rewrite polled_app
    | match goal with
      | H : submissions _ = _ |- _ => rewrite H
      | H : downloads _ = _ |- _ => rewrite H
      | H : progressOf _ = _ |- _ => rewrite H
      | H : classified _ = _ |- _ => rewrite H
      end ].

(** Case analysis of a run along the calls it makes. *)
Ltac run_cases H :=
  rewrite generateVideoFromImage_run in H;
  match type of H with
  | context [match JS.truthy ?k with _ => _ end] =>
      let K := fresh "K" in destruct (JS.truthy k) eqn:K
  | _ => idtac
  end;
  try rewrite tryBlock_run in H; cbv zeta in H;
  repeat match type of H with
    | context [match JS.truthy ?k with _ => _ end] =>
        let T := fresh "T" in destruct (JS.truthy k) eqn:T
    | context [match generateVideos ?r ?a ?q ?w with _ => _ end] =>
        let G := fresh "G" in
        destruct (generateVideos r a q w) as [[?e | ?op] ?w] eqn:G
    | context [match pollUntilDone ?r ?f ?a ?o ?w with _ => _ end] =>
        let L := fresh "L" in
        destruct (pollUntilDone r f a o w) as [[[?completed | ?e | ] ?w] ?loop] eqn:L;
        let Q := fresh "Q" in
        pose proof (pollUntilDone_quiet _ _ _ _ L) as Q;
        destruct Q as (? & ? & ? & ?)
    | context [match duration ?p with _ => _ end] =>
        let D := fresh "D" in destruct (duration p) eqn:D
    | context [match firstVideo ?c with _ => _ end] =>
        let V := fresh "V" in destruct (firstVideo c) eqn:V
    | context [fetchAndCreateUrl ?r ?l ?k ?w] =>
        let F := fresh "F" in
        destruct (fetchAndCreateUrl r l k w) as [[?o ?w] ?evsD] eqn:F;
        let Q := fresh "Q" in
        pose proof (fetchAndCreateUrl_quiet _ _ _ F) as Q;
        destruct Q as (? & ? & ? & ? & ?)
    end;
  inversion H; subst; clear H.

Ltac no_such_text :=
  let H := fresh in
  cbn [In]; intros H; exfalso;
  repeat (destruct H as [H|H]; [discriminate H|]); exact H.

Lemma tryBlock_quiet (fuel : nat) (ai : GoogleGenAI) (p : GenerateVideoParams)
  (w : World) (out : Outcome string) (w' : World) (evs : list Event) :
  tryBlock remote fuel ai p w = (out, w', evs) ->
  downloads evs = [] /\ classified evs = [].
Proof.
  intros B. rewrite tryBlock_run in B. cbv zeta in B.
  repeat match type of B with
    | context [match generateVideos ?r ?a ?q ?w with _ => _ end] =>
        destruct (generateVideos r a q w) as [[?e | ?op] ?w]
    | context [match pollUntilDone ?r ?f ?a ?o ?w with _ => _ end] =>
        let L := fresh "L" in
        destruct (pollUntilDone r f a o w) as [[[?completed | ?e | ] ?w] ?loop] eqn:L;
        let Q := fresh "Q" in
        pose proof (pollUntilDone_quiet _ _ _ _ L) as Q;
        destruct Q as (? & ? & ? & ?)
    | context [match duration ?p with _ => _ end] => destruct (duration p)
    | context [match firstVideo ?c with _ => _ end] => destruct (firstVideo c)
    | context [match JS.truthy ?k with _ => _ end] => destruct (JS.truthy k)
    end; inversion B; subst; events_norm; split; reflexivity.
Qed.

(** The submissions of any run. *)
Lemma submissions_shape (fuel : nat) (API_KEY : option string)
  (p : GenerateVideoParams) (w : World) (out : Outcome string) (w' : World)
  (evs : list Event) :
  generateVideoFromImage remote fuel API_KEY p w = (out, w', evs) ->
  submissions evs = [] \/
  submissions evs = [initialRequest p] \/
  (duration p = long /\
   exists previousVideo,
     submissions evs = [initialRequest p; extensionRequest p previousVideo]).
Proof.
  intros H. run_cases H; events_norm;
    first [ left; reflexivity
          | right; left; reflexivity
          | right; right; split; [reflexivity | eexists; reflexivity] ].
Qed.

(** The progress texts of any run are the first milestones of its kind. *)
Lemma progress_prefix (fuel : nat) (API_KEY : option string)
  (p : GenerateVideoParams) (w : World) (out : Outcome string) (w' : World)
  (evs : list Event) :
  generateVideoFromImage remote fuel API_KEY p w = (out, w', evs) ->
  isPrefix (progressOf evs) (milestones (duration p)) = true.
Proof.
  intros H. run_cases H; events_norm;
    destruct (duration p); try discriminate; reflexivity.
Qed.

Lemma milestones_in_order (d : Duration) (l : list string) :
  isPrefix l (milestones d) = true ->
  NoDup l /\
  (In msgGenerating l -> before msgWarmingUp msgGenerating l) /\
  (forall m,
     In m [msgFinalizing; msgExtending; msgDownloading; msgDownloadingExtended] ->
     In m l -> before msgGenerating m l).
Proof.
  intros H. destruct (isPrefix_firstn _ _ H) as [n ->]. clear H.
  assert (B : forall a b k,
             implb (occurs b (firstn k (milestones d)))
                   (precedes a b (firstn k (milestones d))) = true ->
             In b (firstn k (milestones d)) ->
             before a b (firstn k (milestones d))).
  { intros a b k E Hin. apply precedes_before. apply occurs_In in Hin.
    rewrite Hin in E. exact E. }
  split; [|split].
  - apply noRepeat_NoDup.
    destruct d; do 6 (try destruct n as [|n]); reflexivity.
  - apply B. destruct d; do 6 (try destruct n as [|n]); reflexivity.
  - intros m [<-|[<-|[<-|[<-|[]]]]]; apply B;
      destruct d; do 6 (try destruct n as [|n]); reflexivity.
Qed.

Lemma missingResult_passes_verbatim (d : Duration) (s : Stage) :
  classify (newError (missingResultText d s)) =
    {| kind := Unknown; text := missingResultText d s |}.
Proof. destruct d, s; vm_compute; reflexivity. Qed.

(** X1. Which rejections reach the [catch] block: those of a run that has not
    started a download pass it once, those of a download do not pass it. *)
Lemma rejection_paths (fuel : nat) (apiKey : string) (API_KEY : option string)
  (p : GenerateVideoParams) (w : World) (err : JsError) (w' : World)
  (evs : list Event) :
  JS.truthy API_KEY = Some apiKey ->
  generateVideoFromImage remote fuel API_KEY p w = (Rejected err, w', evs) ->
  (downloads evs = [] /\
   exists e, classified evs = [e] /\ err = newError (text (classify e))) \/
  (exists link, downloads evs = [(link ++ "&key=" ++ apiKey)%string] /\
   classified evs = [] /\
   exists w1 evs1 evsD,
     tryBlock remote fuel {| clientApiKey := apiKey |} p w = (Resolved link, w1, evs1) /\
     fetchAndCreateUrl remote link apiKey w1 = (Rejected err, w', evsD) /\
     evs = evs1 ++ evsD).
Proof.
  intros Hk H. rewrite generateVideoFromImage_run, Hk in H.
  destruct (tryBlock remote fuel _ p w) as [[[link|e|] w1] evs1] eqn:B.
  - right. destruct (fetchAndCreateUrl remote link apiKey w1) as [[o w2] evsD] eqn:F.
    inversion H; subst. exists link.
    destruct (fetchAndCreateUrl_quiet _ _ _ F) as (D1 & D2 & D3 & D4 & D5).
    destruct (tryBlock_quiet _ _ _ _ B) as [Q1 Q2]. events_norm. repeat split.
    exists w1, evs1, evsD. auto.
  - left. inversion H; subst.
    destruct (tryBlock_quiet _ _ _ _ B) as [Q1 Q2]. events_norm. split; [reflexivity|].
    exists e. split; reflexivity.
  - discriminate H.
Qed.



(** A download that is refused: the rejection carries the status text and
    has not been through the [catch] block. *)
Lemma refused_download_reaches_caller (fuel : nat) (apiKey : string)
  (API_KEY : option string) (p : GenerateVideoParams) (w : World) (link : string)
  (w1 : World) (evs1 : list Event) (response : Response) (w2 : World) :
  JS.truthy API_KEY = Some apiKey ->
  tryBlock remote fuel {| clientApiKey := apiKey |} p w = (Resolved link, w1, evs1) ->
  fetch remote (link ++ "&key=" ++ apiKey)%string w1 = (inr response, w2) ->
  ok response = false ->
  generateVideoFromImage remote fuel API_KEY p w =
    (Rejected (newError ("Failed to download video: " ++ statusText response)%string),
     w2, evs1 ++ [Fetch (link ++ "&key=" ++ apiKey)%string (inr response)]) /\
  classified (evs1 ++ [Fetch (link ++ "&key=" ++ apiKey)%string (inr response)]) = [].
Proof.
  intros Hk B F O.
  rewrite generateVideoFromImage_run, Hk, B, fetchAndCreateUrl_run. cbv zeta.
  rewrite F, O. split; [reflexivity|].
  destruct (tryBlock_quiet _ _ _ _ B) as [_ Q]. events_norm. reflexivity.
Qed.

(** C1. A run for a long video that has a key submits the initial request
    and at most one more request, which is the extension request built on
    the video of the completed first operation: it carries that video, the
    caller's prompt and the same configuration, and no image.  The run
    resolves exactly when both stages complete, the second with a download
    link whose download succeeds; it then has made exactly these two
    submissions, each polled to completion. *)
Theorem long_run_two_stages (apiKey : string) (API_KEY : option string)
  (p : GenerateVideoParams) (w : World) :
  duration p = long ->
  JS.truthy API_KEY = Some apiKey ->
  (forall fuel out w' evs,
     generateVideoFromImage remote fuel API_KEY p w = (out, w', evs) ->
     (submissions evs = [initialRequest p] \/
      exists op1 loop1 completed1 w1 previousVideo,
        stage remote {| clientApiKey := apiKey |} (initialRequest p) w
          op1 loop1 completed1 w1 /\
        firstVideo completed1 = Some previousVideo /\
        submissions evs = [initialRequest p; extensionRequest p previousVideo]) /\
     forall objectUrl, out = Resolved objectUrl ->
       longRun remote {| clientApiKey := apiKey |} apiKey p w evs objectUrl w' /\
       length (submissions evs) = 2 /\ length (downloads evs) = 1) /\
  (forall evs objectUrl w',
     longRun remote {| clientApiKey := apiKey |} apiKey p w evs objectUrl w' ->
     forall fuel, length (polled evs) <= fuel ->
       generateVideoFromImage remote fuel API_KEY p w = (Resolved objectUrl, w', evs)) /\
  (forall previousVideo,
     requestVideo (extensionRequest p previousVideo) = Some previousVideo /\
     requestImage (extensionRequest p previousVideo) = None /\
     requestPrompt (extensionRequest p previousVideo) = prompt p /\
     requestPrompt (initialRequest p) = prompt p /\
     config (extensionRequest p previousVideo) = config (initialRequest p)).
Proof.
  intros Hd Hk. split; [|split].
  - intros fuel out w' evs H.
    rewrite generateVideoFromImage_run, Hk, tryBlock_run, Hd in H. cbv zeta in H.
    destruct (generateVideos remote _ (initialRequest p) w) as [[e|op1] w1] eqn:G.
    { inversion H; subst. split; [left; reflexivity|discriminate]. }
    destruct (pollUntilDone remote fuel _ op1 w1) as [[[completed1|e|] w2] loop1] eqn:L;
      destruct (pollUntilDone_quiet _ _ _ _ L) as (Q1 & Q2 & Q3 & Q4).
    2,3: inversion H; subst; split; [left|discriminate]; events_norm; reflexivity.
    destruct (firstVideo completed1) as [previousVideo|] eqn:V.
    2: { inversion H; subst. split; [left|discriminate]. events_norm. reflexivity. }
    assert (S1 : stage remote {| clientApiKey := apiKey |} (initialRequest p) w
                   op1 loop1 completed1 w2).
    { exists w1. split; [exact G|]. now apply pollUntilDone_polling in L. }
    destruct (generateVideos remote _ (extensionRequest p previousVideo) w2)
      as [[e|op2] w3] eqn:G2.
    { inversion H; subst. split; [right|discriminate].
      exists op1, loop1, completed1, w2, previousVideo. repeat split; auto.
      events_norm. reflexivity. }
    destruct (pollUntilDone remote fuel _ op2 w3) as [[[completed2|e|] w4] loop2] eqn:L2;
      destruct (pollUntilDone_quiet _ _ _ _ L2) as (R1 & R2 & R3 & R4).
    2,3: inversion H; subst; split; [right|discriminate];
         exists op1, loop1, completed1, w2, previousVideo; repeat split; auto;
         events_norm; reflexivity.
    destruct (JS.truthy (downloadLinkOf completed2)) as [link|] eqn:T.
    2: { inversion H; subst. split; [right|discriminate].
         exists op1, loop1, completed1, w2, previousVideo. repeat split; auto.
         events_norm. reflexivity. }
    destruct (fetchAndCreateUrl remote link apiKey w4) as [[o w5] evsD] eqn:F.
    destruct (fetchAndCreateUrl_quiet _ _ _ F) as (D1 & D2 & D3 & D4 & D5).
    inversion H; subst.
    match goal with
    | |- (submissions ?l = _ \/ _) /\ _ =>
        assert (E : submissions l =
                      [initialRequest p; extensionRequest p previousVideo])
    end.
    { events_norm. reflexivity. }
    split.
    { right. exists op1, loop1, completed1, w2, previousVideo. auto. }
    intros objectUrl ->. split; [|split].
    + exists op1, loop1, completed1, w2, previousVideo, op2, loop2, completed2, w4,
        link, evsD.
      repeat split; auto.
      * exists w3. split; [exact G2|]. now apply pollUntilDone_polling in L2.
      * now apply fetchAndCreateUrl_resolved.
      * list_norm. reflexivity.
    + rewrite E. reflexivity.
    + events_norm. reflexivity.
  - intros evs objectUrl w'
      (op1 & loop1 & completed1 & w1 & previousVideo & op2 & loop2 & completed2 & w2 &
       link & evsD & (w0 & G & L) & V & (w3 & G2 & L2) & T & D & ->) fuel Hfuel.
    assert (B : length (polled loop1) <= fuel /\ length (polled loop2) <= fuel).
    { cbn [polled] in Hfuel. rewrite polled_app, length_app in Hfuel.
      cbn [polled] in Hfuel. rewrite polled_app, length_app in Hfuel. lia. }
    destruct B as [B1 B2].
    rewrite generateVideoFromImage_run, Hk, tryBlock_run, Hd. cbv zeta.
    rewrite G, (polling_pollUntilDone L) by (try discriminate; exact B1).
    rewrite V, G2, (polling_pollUntilDone L2) by (try discriminate; exact B2).
    rewrite T. apply fetchAndCreateUrl_resolved in D. rewrite D.
    list_norm. reflexivity.
  - intros previousVideo. repeat split.
Qed.

(** C2. A run for a short video that has a key makes the one submission of
    the initial request, whatever its outcome; it resolves exactly when
    that one stage completes with a download link and the download of that
    link succeeds, and then with the object URL of the downloaded video. *)
Theorem short_run_one_stage (apiKey : string) (API_KEY : option string)
  (p : GenerateVideoParams) (w : World) :
  duration p = short ->
  JS.truthy API_KEY = Some apiKey ->
  (forall fuel out w' evs,
     generateVideoFromImage remote fuel API_KEY p w = (out, w', evs) ->
     submissions evs = [initialRequest p] /\
     forall objectUrl, out = Resolved objectUrl ->
       shortRun remote {| clientApiKey := apiKey |} apiKey p w evs objectUrl w' /\
       length (downloads evs) = 1) /\
  (forall evs objectUrl w',
     shortRun remote {| clientApiKey := apiKey |} apiKey p w evs objectUrl w' ->
     forall fuel, length (polled evs) <= fuel ->
       generateVideoFromImage remote fuel API_KEY p w = (Resolved objectUrl, w', evs)).
Proof.
  intros Hd Hk. split.
  - intros fuel out w' evs H.
    rewrite generateVideoFromImage_run, Hk, tryBlock_run, Hd in H. cbv zeta in H.
    destruct (generateVideos remote _ (initialRequest p) w) as [[e|op1] w1] eqn:G.
    { inversion H; subst. split; [reflexivity|discriminate]. }
    destruct (pollUntilDone remote fuel _ op1 w1) as [[[completed1|e|] w2] loop1] eqn:L;
      destruct (pollUntilDone_quiet _ _ _ _ L) as (Q1 & Q2 & Q3 & Q4).
    + destruct (JS.truthy (downloadLinkOf completed1)) as [link|] eqn:T.
      * destruct (fetchAndCreateUrl remote link apiKey w2) as [[o w3] evsD] eqn:F.
        destruct (fetchAndCreateUrl_quiet _ _ _ F) as (D1 & D2 & D3 & D4 & D5).
        inversion H; subst. split.
        { cbn [app submissions]. rewrite !submissions_app, Q2. cbn [app submissions].
          rewrite D2. reflexivity. }
        intros objectUrl ->. split.
        { exists op1, loop1, completed1, w2, link, evsD. repeat split; auto.
          - exists w1. split; [exact G|]. now apply pollUntilDone_polling in L.
          - now apply fetchAndCreateUrl_resolved.
          - list_norm. reflexivity. }
        cbn [app downloads]. rewrite !downloads_app, Q3. cbn [app downloads].
        rewrite D5. reflexivity.
      * inversion H; subst. split; [|discriminate].
        cbn [app submissions]. rewrite !submissions_app, Q2. reflexivity.
    + inversion H; subst. split; [|discriminate].
      cbn [app submissions]. rewrite !submissions_app, Q2. reflexivity.
    + inversion H; subst. split; [|discriminate].
      cbn [app submissions]. rewrite Q2. reflexivity.
  - intros evs objectUrl w' (op1 & loop1 & completed1 & w1 & link & evsD &
                             (w0 & G & L) & T & D & ->) fuel Hfuel.
    rewrite generateVideoFromImage_run, Hk, tryBlock_run, Hd. cbv zeta.
    rewrite G.
    rewrite (polling_pollUntilDone L) by
      (try discriminate; cbn [polled] in Hfuel; rewrite polled_app in Hfuel;
       rewrite length_app in Hfuel; lia).
    rewrite T. apply fetchAndCreateUrl_resolved in D. rewrite D.
    list_norm. reflexivity.
Qed.

(** C3. Without a credential the call is rejected with the missing-key
    error at once: the world is untouched and the run has no event, hence
    no submission, no poll and no download. *)
Theorem missing_credential_no_remote_call (fuel : nat) (API_KEY : option string)
  (p : GenerateVideoParams) (w : World) :
  JS.truthy API_KEY = None ->
  generateVideoFromImage remote fuel API_KEY p w =
    (Rejected (newError errNoApiKey), w, []) /\
  forall evs, evs = snd (generateVideoFromImage remote fuel API_KEY p w) ->
    existsb isRemoteCall evs = false /\ submissions evs = [] /\ polled evs = [] /\
    downloads evs = [] /\ classified evs = [].
Proof.
  intros H. rewrite generateVideoFromImage_run, H. split; [reflexivity|].
  intros evs ->. repeat split.
Qed.

(** C10. The submissions of any run are the initial request, to the model
    "veo-3.1-fast-generate-preview", and in a long run possibly a second
    one, the extension request, to the model "veo-3.1-generate-preview";
    both carry the same configuration: one video, "720p" and the caller's
    aspect ratio. *)
Theorem stage_requests_differ_in_model (fuel : nat) (API_KEY : option string)
  (p : GenerateVideoParams) (w : World) (out : Outcome string) (w' : World)
  (evs : list Event) :
  generateVideoFromImage remote fuel API_KEY p w = (out, w', evs) ->
  (forall i r, nth_error (submissions evs) i = Some r ->
     config r = {| numberOfVideos := 1; resolution := "720p";
                   configAspectRatio := aspectRatio p |} /\
     ((i = 0 /\ r = initialRequest p /\ model r = "veo-3.1-fast-generate-preview") \/
      (i = 1 /\ duration p = long /\ model r = "veo-3.1-generate-preview" /\
       exists previousVideo, r = extensionRequest p previousVideo))) /\
  (forall previousVideo,
     model (initialRequest p) <> model (extensionRequest p previousVideo) /\
     config (initialRequest p) = config (extensionRequest p previousVideo)).
Proof.
  intros H. split.
  - intros i r Hi.
    destruct (submissions_shape _ _ _ _ H) as [E|[E|(Hd & v & E)]];
      rewrite E in Hi.
    + destruct i; discriminate Hi.
    + destruct i as [|[|i]]; try discriminate Hi.
      inversion Hi; subst. split; [reflexivity|]. left. auto.
    + destruct i as [|[|[|i]]]; try discriminate Hi; inversion Hi; subst;
        (split; [reflexivity|]).
      * left. auto.
      * right. repeat split; auto. exists v. reflexivity.
  - intros v. split; [discriminate|reflexivity].
Qed.

(** C7. When a stage completes and its operation lacks what the run reads
    from it, the run is rejected with the missing-result message of that
    stage, which the [catch] block passes on as it is, and the run has
    fetched nothing. *)
Theorem missing_result_no_download (apiKey : string) (API_KEY : option string)
  (p : GenerateVideoParams) (w : World) (s : Stage) (polls : nat) (w' : World) :
  JS.truthy API_KEY = Some apiKey ->
  completesWithoutResult remote {| clientApiKey := apiKey |} p w s polls w' ->
  forall fuel, polls <= fuel ->
    exists evs,
      generateVideoFromImage remote fuel API_KEY p w =
        (Rejected (newError (missingResultText (duration p) s)), w', evs) /\
      downloads evs = [] /\
      classified evs = [newError (missingResultText (duration p) s)].
Proof.
  intros Hk C fuel Hfuel. unfold completesWithoutResult in C.
  rewrite generateVideoFromImage_run, Hk, tryBlock_run. cbv zeta.
  destruct s, (duration p) eqn:Hd.
  - destruct C as (op1 & loop1 & completed1 & (w1 & G & L) & T & ->).
    destruct (polling_quiet L) as (Q1 & Q2 & Q3 & Q4).
    rewrite G, (polling_pollUntilDone L) by (try discriminate; exact Hfuel).
    rewrite T. eexists. split; [|split].
    + pose proof (missingResult_passes_verbatim short INITIAL) as M.
      cbn [missingResultText] in M |- *. rewrite M. reflexivity.
    + events_norm. reflexivity.
    + events_norm. reflexivity.
  - destruct C as (op1 & loop1 & completed1 & (w1 & G & L) & V & ->).
    destruct (polling_quiet L) as (Q1 & Q2 & Q3 & Q4).
    rewrite G, (polling_pollUntilDone L) by (try discriminate; exact Hfuel).
    rewrite V. eexists. split; [|split].
    + pose proof (missingResult_passes_verbatim long INITIAL) as M.
      cbn [missingResultText] in M |- *. rewrite M. reflexivity.
    + events_norm. reflexivity.
    + events_norm. reflexivity.
  - elim C.
  - destruct C as (op1 & loop1 & completed1 & w1 & previousVideo & op2 & loop2 &
                   completed2 & (w0 & G & L) & V & (w2 & G2 & L2) & T & ->).
    destruct (polling_quiet L) as (Q1 & Q2 & Q3 & Q4).
    destruct (polling_quiet L2) as (R1 & R2 & R3 & R4).
    rewrite G, (polling_pollUntilDone L) by (try discriminate; lia).
    rewrite V, G2, (polling_pollUntilDone L2) by (try discriminate; lia).
    rewrite T. eexists. split; [|split].
    + pose proof (missingResult_passes_verbatim long EXTENSION) as M.
      cbn [missingResultText] in M |- *. rewrite M. reflexivity.
    + events_norm. reflexivity.
    + events_norm. reflexivity.
Qed.

(** C8. In every run the progress texts are the first milestones of the
    run's kind, in the order of the program: none is emitted twice, the
    warming-up text comes before the generating text, and the generating
    text before any finalizing, extending or downloading text. *)
Theorem progress_in_milestone_order (fuel : nat) (API_KEY : option string)
  (p : GenerateVideoParams) (w : World) (out : Outcome string) (w' : World)
  (evs : list Event) :
  generateVideoFromImage remote fuel API_KEY p w = (out, w', evs) ->
  isPrefix (progressOf evs) (milestones (duration p)) = true /\
  NoDup (progressOf evs) /\
  (In msgGenerating (progressOf evs) ->
   before msgWarmingUp msgGenerating (progressOf evs)) /\
  (forall m,
     In m [msgFinalizing; msgExtending; msgDownloading; msgDownloadingExtended] ->
     In m (progressOf evs) -> before msgGenerating m (progressOf evs)).
Proof.
  intros H. pose proof (progress_prefix _ _ _ _ H) as P.
  split; [exact P|]. exact (milestones_in_order _ _ P).
Qed.

(** What a long run does once its first loop has returned [completed1]: it
    emits the finalizing text, waits for the settle delay and emits the
    extending text, and only then looks at the video of [completed1]. *)
Lemma extending_after_first_loop (apiKey : string) (API_KEY : option string)
  (p : GenerateVideoParams) (w : World) (op1 : Operation) (w0 : World)
  (fuel : nat) (completed1 : Operation) (w1 : World) (loop1 : list Event)
  (out : Outcome string) (w' : World) (evs : list Event) :
  duration p = long ->
  JS.truthy API_KEY = Some apiKey ->
  generateVideos remote {| clientApiKey := apiKey |} (initialRequest p) w =
    (inr op1, w0) ->
  pollUntilDone remote fuel {| clientApiKey := apiKey |} op1 w0 =
    (Resolved completed1, w1, loop1) ->
  generateVideoFromImage remote fuel API_KEY p w = (out, w', evs) ->
  exists rest,
    evs = Progress msgWarmingUp
            :: Submit {| clientApiKey := apiKey |} (initialRequest p) (inr op1)
            :: Progress msgGenerating :: loop1
            ++ Progress msgFinalizing :: Wait settleDelay
            :: Progress msgExtending :: rest /\
    ~ In msgExtending (progressOf rest) /\
    match firstVideo completed1 with
    | None =>
        out = Rejected (newError errNoInitialVideo) /\
        rest = [ConsoleError (newError errNoInitialVideo)]
    | Some previousVideo =>
        exists reply rest',
          rest = Submit {| clientApiKey := apiKey |}
                   (extensionRequest p previousVideo) reply :: rest'
    end.
Proof.
  intros Hd Hk G L H.
  rewrite generateVideoFromImage_run, Hk, tryBlock_run, Hd in H. cbv zeta in H.
  rewrite G, L in H.
  destruct (firstVideo completed1) as [previousVideo|] eqn:V.
  2: { inversion H; subst. eexists. split; [|split].
       - list_norm. reflexivity.
       - events_norm. no_such_text.
       - split; reflexivity. }
  destruct (generateVideos remote _ (extensionRequest p previousVideo) w1)
    as [[e|op2] w3] eqn:G2.
  { inversion H; subst. eexists. split; [|split].
    - list_norm. reflexivity.
    - events_norm. no_such_text.
    - eexists _, _. reflexivity. }
  destruct (pollUntilDone remote fuel _ op2 w3) as [[[completed2|e|] w4] loop2] eqn:L2;
    destruct (pollUntilDone_quiet _ _ _ _ L2) as (R1 & R2 & R3 & R4).
  2,3: inversion H; subst; eexists; (split; [|split]);
       [ list_norm; reflexivity
       | events_norm; no_such_text
       | eexists _, _; reflexivity ].
  destruct (JS.truthy (downloadLinkOf completed2)) as [link|] eqn:T.
  2: { inversion H; subst. eexists. split; [|split].
       - list_norm. reflexivity.
       - events_norm. no_such_text.
       - eexists _, _. reflexivity. }
  destruct (fetchAndCreateUrl remote link apiKey w4) as [[o w5] evsD] eqn:F.
  destruct (fetchAndCreateUrl_quiet _ _ _ F) as (D1 & D2 & D3 & D4 & D5).
  inversion H; subst. eexists. split; [|split].
  - list_norm. reflexivity.
  - events_norm. no_such_text.
  - eexists _, _. reflexivity.
Qed.

(** C9, as the code has it. In a long run the extending text is emitted
    once the first loop has completed and the settle delay has passed,
    before the video of the first operation is looked at and before the
    extension is submitted. Every run whose first stage completes emits it,
    there and only there, whether the first operation has a video or not
    and whatever happens afterwards; a run that emits it is such a run; and
    a run whose first operation completes without a video is rejected for
    that after it has emitted the text, with no extension submitted. *)
Theorem extending_announced_before_validation (apiKey : string)
  (API_KEY : option string) (p : GenerateVideoParams) (w : World) :
  duration p = long ->
  JS.truthy API_KEY = Some apiKey ->
  (forall fuel out w' evs,
     generateVideoFromImage remote fuel API_KEY p w = (out, w', evs) ->
     In msgExtending (progressOf evs) ->
     exists op1 loop1 completed1 w1 rest,
       stage remote {| clientApiKey := apiKey |} (initialRequest p) w
         op1 loop1 completed1 w1 /\
       evs = Progress msgWarmingUp
               :: Submit {| clientApiKey := apiKey |} (initialRequest p) (inr op1)
               :: Progress msgGenerating :: loop1
               ++ Progress msgFinalizing :: Wait settleDelay
               :: Progress msgExtending :: rest /\
       ~ In msgExtending (progressOf rest) /\
       match firstVideo completed1 with
       | None =>
           out = Rejected (newError errNoInitialVideo) /\
           rest = [ConsoleError (newError errNoInitialVideo)]
       | Some previousVideo =>
           exists reply rest',
             rest = Submit {| clientApiKey := apiKey |}
                      (extensionRequest p previousVideo) reply :: rest'
       end) /\
  (forall op1 loop1 completed1 w1,
     stage remote {| clientApiKey := apiKey |} (initialRequest p) w
       op1 loop1 completed1 w1 ->
     forall fuel out w' evs,
       length (polled loop1) <= fuel ->
       generateVideoFromImage remote fuel API_KEY p w = (out, w', evs) ->
       In msgExtending (progressOf evs) /\
       exists rest,
         evs = Progress msgWarmingUp
                 :: Submit {| clientApiKey := apiKey |} (initialRequest p) (inr op1)
                 :: Progress msgGenerating :: loop1
                 ++ Progress msgFinalizing :: Wait settleDelay
                 :: Progress msgExtending :: rest /\
         submissions (Progress msgWarmingUp
                        :: Submit {| clientApiKey := apiKey |} (initialRequest p)
                             (inr op1)
                        :: Progress msgGenerating :: loop1
                        ++ [Progress msgFinalizing; Wait settleDelay]) =
           [initialRequest p] /\
         ~ In msgExtending (progressOf rest) /\
         match firstVideo completed1 with
         | None =>
             out = Rejected (newError errNoInitialVideo) /\
             rest = [ConsoleError (newError errNoInitialVideo)]
         | Some previousVideo =>
             exists reply rest',
               rest = Submit {| clientApiKey := apiKey |}
                        (extensionRequest p previousVideo) reply :: rest'
         end) /\
  (forall op1 loop1 completed1 w1,
     stage remote {| clientApiKey := apiKey |} (initialRequest p) w
       op1 loop1 completed1 w1 ->
     firstVideo completed1 = None ->
     forall fuel, length (polled loop1) <= fuel ->
       generateVideoFromImage remote fuel API_KEY p w =
         (Rejected (newError errNoInitialVideo), w1,
          Progress msgWarmingUp
            :: Submit {| clientApiKey := apiKey |} (initialRequest p) (inr op1)
            :: Progress msgGenerating :: loop1
            ++ [Progress msgFinalizing; Wait settleDelay; Progress msgExtending;
                ConsoleError (newError errNoInitialVideo)])).
Proof.
  intros Hd Hk. split; [|split].
  - intros fuel out w' evs H.
    rewrite generateVideoFromImage_run, Hk, tryBlock_run, Hd in H. cbv zeta in H.
    destruct (generateVideos remote _ (initialRequest p) w) as [[e|op1] w1] eqn:G.
    { inversion H; subst. events_norm. no_such_text. }
    destruct (pollUntilDone remote fuel _ op1 w1) as [[[completed1|e|] w2] loop1] eqn:L;
      destruct (pollUntilDone_quiet _ _ _ _ L) as (Q1 & Q2 & Q3 & Q4).
    2,3: inversion H; subst; events_norm; no_such_text.
    intros _.
    assert (S1 : stage remote {| clientApiKey := apiKey |} (initialRequest p) w
                   op1 loop1 completed1 w2).
    { exists w1. split; [exact G|]. now apply pollUntilDone_polling in L. }
    exists op1, loop1, completed1, w2.
    destruct (firstVideo completed1) as [previousVideo|] eqn:V.
    2: { inversion H; subst. eexists. split; [exact S1|]. split; [|split].
         - list_norm. reflexivity.
         - events_norm. no_such_text.
         - split; reflexivity. }
    destruct (generateVideos remote _ (extensionRequest p previousVideo) w2)
      as [[e|op2] w3] eqn:G2.
    { inversion H; subst. eexists. split; [exact S1|]. split; [|split].
      - list_norm. reflexivity.
      - events_norm. no_such_text.
      - eexists _, _. reflexivity. }
    destruct (pollUntilDone remote fuel _ op2 w3) as [[[completed2|e|] w4] loop2] eqn:L2;
      destruct (pollUntilDone_quiet _ _ _ _ L2) as (R1 & R2 & R3 & R4).
    2,3: inversion H; subst; eexists; (split; [exact S1|]); (split; [|split]);
         [ list_norm; reflexivity
         | events_norm; no_such_text
         | eexists _, _; reflexivity ].
    destruct (JS.truthy (downloadLinkOf completed2)) as [link|] eqn:T.
    2: { inversion H; subst. eexists. split; [exact S1|]. split; [|split].
         - list_norm. reflexivity.
         - events_norm. no_such_text.
         - eexists _, _. reflexivity. }
    destruct (fetchAndCreateUrl remote link apiKey w4) as [[o w5] evsD] eqn:F.
    destruct (fetchAndCreateUrl_quiet _ _ _ F) as (D1 & D2 & D3 & D4 & D5).
    inversion H; subst. eexists. split; [exact S1|]. split; [|split].
    + list_norm. reflexivity.
    + events_norm. no_such_text.
    + eexists _, _. reflexivity.
  - intros op1 loop1 completed1 w1 (w0 & G & L) fuel out w' evs Hfuel H.
    destruct (polling_quiet L) as (Q1 & Q2 & Q3 & Q4).
    assert (L' : pollUntilDone remote fuel {| clientApiKey := apiKey |} op1 w0 =
                   (Resolved completed1, w1, loop1)).
    { apply (polling_pollUntilDone L); [discriminate|exact Hfuel]. }
    destruct (@extending_after_first_loop apiKey API_KEY p w op1 w0 fuel completed1
                w1 loop1 out w' evs Hd Hk G L' H) as (rest & E & N & M).
    split.
    { rewrite E. events_norm. cbn [In]. right. right. right. left. reflexivity. }
    exists rest. split; [exact E|]. split; [|split; [exact N|exact M]].
    events_norm. reflexivity.
  - intros op1 loop1 completed1 w1 (w0 & G & L) V fuel Hfuel.
    rewrite generateVideoFromImage_run, Hk, tryBlock_run, Hd. cbv zeta.
    rewrite G, (polling_pollUntilDone L) by (try discriminate; exact Hfuel).
    rewrite V. pose proof (missingResult_passes_verbatim long INITIAL) as M.
    cbn [missingResultText] in M. rewrite M. list_norm. reflexivity.
Qed.

(** ** More on the service *)

Lemma waits_app (a b : list Event) : waits (a ++ b) = waits a ++ waits b.
Proof.
  induction a as [|e a IH]; [reflexivity|].
  destruct e; simpl; rewrite IH; reflexivity.
Qed.

Lemma clients_app (a b : list Event) : clients (a ++ b) = clients a ++ clients b.
Proof.
  induction a as [|e a IH]; [reflexivity|].
  destruct e; simpl; rewrite IH; reflexivity.
Qed.

Lemma totalWait_app (a b : list Event) :
  totalWait (a ++ b) = (totalWait a + totalWait b)%Z.
Proof.
  unfold totalWait. rewrite waits_app.
  induction (waits a) as [|x l IH]; simpl; [reflexivity|]. rewrite IH. lia.
Qed.

Lemma totalWait_repeat (n : nat) (evs : list Event) :
  waits evs = repeat pollInterval n ->
  totalWait evs = (pollInterval * Z.of_nat n)%Z.
Proof.
  unfold totalWait. intros ->. induction n as [|n IH]; [simpl; lia|].
  cbn [repeat fold_right]. rewrite IH. lia.
Qed.

(** What a loop adds to a run. *)
Lemma pollUntilDone_anatomy (fuel : nat) (ai : GoogleGenAI) (op : Operation)
  (w : World) (out : Outcome Operation) (w' : World) (evs : list Event) :
  pollUntilDone remote fuel ai op w = (out, w', evs) ->
  totalWait evs = (pollInterval * Z.of_nat (length (polled evs)))%Z /\
  Forall (fun ms => ms = pollInterval) (waits evs) /\
  Forall (fun c => c = ai) (clients evs) /\
  objectUrls evs = [] /\ bodyReads evs = [].
Proof.
  intros H. apply pollUntilDone_polling in H.
  split; [apply totalWait_repeat; apply (polling_events H)|].
  induction H; simpl; repeat split; auto;
    destruct IHpolling as (? & ? & ? & ?); auto.
Qed.

(** What a download adds to a run. *)
Lemma fetchAndCreateUrl_anatomy (link apiKey : string) (w : World)
  (out : Outcome string) (w' : World) (evs : list Event) :
  fetchAndCreateUrl remote link apiKey w = (out, w', evs) ->
  totalWait evs = 0%Z /\ clients evs = [].
Proof.
  rewrite fetchAndCreateUrl_run. cbv zeta. intros H.
  destruct (fetch remote _ w) as [[e|response] w1].
  - inversion H; subst. split; reflexivity.
  - destruct (ok response).
    + destruct (blob remote response w1) as [[e|videoBlob] w2].
      * inversion H; subst. split; reflexivity.
      * destruct (createObjectURL remote videoBlob w2) as [objectUrl w3].
        inversion H; subst. split; reflexivity.
    + inversion H; subst. split; reflexivity.
Qed.

Lemma totalWait_cons (e : Event) (l : list Event) :
  totalWait (e :: l) = (totalWait [e] + totalWait l)%Z.
Proof. exact (totalWait_app [e] l). Qed.

(** Splits the time and the polls of a run along its parts. *)
Ltac wait_norm :=
  repeat first
    [ rewrite totalWait_app | rewrite polled_app | rewrite progressOf_app
    | rewrite length_app | rewrite Nat2Z.inj_add
    | match goal with
      | |- context [totalWait (?e :: ?l)] =>
          lazymatch l with
          | [] => fail
          | _ => rewrite (totalWait_cons e l)
          end
      end
    | progress cbn [app polled progressOf length]
    | match goal with
      | E : progressOf _ = _ |- _ => rewrite E
      | E : polled _ = _ |- _ => rewrite E
      | E : totalWait _ = _ |- _ => rewrite E
      end ];
  cbv [totalWait waits fold_right];
  repeat match goal with
    | |- context [occurs ?a ?l] =>
        let v := eval vm_compute in (occurs a l) in
        change (occurs a l) with v
    end;
  cbn iota.

Ltac anatomy :=
  repeat match goal with
    | L : pollUntilDone _ _ _ _ _ = _ |- _ =>
        let A := fresh "A" in
        pose proof (pollUntilDone_anatomy _ _ _ _ L) as A;
        destruct A as (? & ? & ? & ? & ?); clear L
    | F : fetchAndCreateUrl _ _ _ _ = _ |- _ =>
        let A := fresh "A" in
        pose proof (fetchAndCreateUrl_anatomy _ _ _ F) as A;
        destruct A as (? & ?); clear F
    end.

(** X2. The time a run waits is twenty seconds for each poll, and three more
    seconds once the first stage of a long run has completed; a short run
    never waits for anything but a poll. *)
Theorem waiting_time (fuel : nat) (API_KEY : option string)
  (p : GenerateVideoParams) (w : World) (out : Outcome string) (w' : World)
  (evs : list Event) :
  generateVideoFromImage remote fuel API_KEY p w = (out, w', evs) ->
  totalWait evs =
    (20000 * Z.of_nat (length (polled evs)) +
     (if occurs msgFinalizing (progressOf evs) then 3000 else 0))%Z /\
  (duration p = short -> occurs msgFinalizing (progressOf evs) = false) /\
  (duration p = long -> occurs msgExtending (progressOf evs) = true ->
   occurs msgFinalizing (progressOf evs) = true).
Proof.
  intros H. run_cases H; anatomy; wait_norm; (split; [|split]);
    try (intros; discriminate); try (intros; reflexivity);
    unfold pollInterval, settleDelay; lia.
Qed.

(** X3. A download makes one request, to the link with the key appended; it
    leaves an object URL exactly when it resolves; and a response that is
    not [ok] is rejected with its status text before its body is read. *)
Theorem download_all_or_nothing (link apiKey : string) (w : World)
  (out : Outcome string) (w' : World) (evs : list Event) :
  fetchAndCreateUrl remote link apiKey w = (out, w', evs) ->
  downloads evs = [(link ++ "&key=" ++ apiKey)%string] /\
  (forall u, out = Resolved u <-> objectUrls evs = [u]) /\
  (forall response w1,
     fetch remote (link ++ "&key=" ++ apiKey)%string w = (inr response, w1) ->
     ok response = false ->
     out = Rejected (newError ("Failed to download video: " ++ statusText response)%string) /\
     bodyReads evs = [] /\ w' = w1).
Proof.
  rewrite fetchAndCreateUrl_run. cbv zeta. intros H.
  destruct (fetch remote _ w) as [[e|response] w1] eqn:F.
  - inversion H; subst. repeat split; discriminate.
  - destruct (ok response) eqn:O.
    + destruct (blob remote response w1) as [[e|videoBlob] w2].
      * inversion H; subst. repeat split; try discriminate.
        all: match goal with E : (_, _) = (_, _) |- _ => inversion E; subst end;
          congruence.
      * destruct (createObjectURL remote videoBlob w2) as [objectUrl w3].
        inversion H; subst. repeat split.
        all: try (intros E; inversion E; subst; reflexivity).
        all: match goal with E : (_, _) = (_, _) |- _ => inversion E; subst end;
          congruence.
    + inversion H; subst. repeat split; try discriminate.
      all: match goal with E : (_, _) = (_, _) |- _ => inversion E; subst end;
        reflexivity.
Qed.

(** X4. Every call to the service of a run is made with the client of the one
    key the run started with, and every download is of a link with that key
    appended. *)
Theorem one_key_per_run (fuel : nat) (apiKey : string) (API_KEY : option string)
  (p : GenerateVideoParams) (w : World) (out : Outcome string) (w' : World)
  (evs : list Event) :
  JS.truthy API_KEY = Some apiKey ->
  generateVideoFromImage remote fuel API_KEY p w = (out, w', evs) ->
  Forall (fun c => c = {| clientApiKey := apiKey |}) (clients evs) /\
  Forall (fun u => exists link, u = (link ++ "&key=" ++ apiKey)%string) (downloads evs).
Proof.
  intros Hk H. run_cases H; inversion Hk; subst; anatomy;
    (split;
     [ repeat first [ rewrite clients_app | progress cbn [clients app]
                    | match goal with E : clients _ = [] |- _ => rewrite E end ];
       repeat first [ assumption | apply Forall_nil
                    | apply Forall_cons; [reflexivity|]
                    | apply Forall_app; split ]
     | events_norm; repeat constructor; eexists; reflexivity ]).
Qed.

(** X5. A first operation that completes with a video without a [uri]: a short
    run is rejected for the missing download link, a long run submits the
    extension on that video. *)
Theorem video_without_link (apiKey : string) (API_KEY : option string)
  (p : GenerateVideoParams) (w : World) (op1 : Operation) (loop1 : list Event)
  (completed1 : Operation) (w1 : World) (v : Video) :
  JS.truthy API_KEY = Some apiKey ->
  stage remote {| clientApiKey := apiKey |} (initialRequest p) w
    op1 loop1 completed1 w1 ->
  firstVideo completed1 = Some v ->
  JS.truthy (uri v) = None ->
  forall fuel out w' evs,
    length (polled loop1) <= fuel ->
    generateVideoFromImage remote fuel API_KEY p w = (out, w', evs) ->
    match duration p with
    | short =>
        out = Rejected (newError errNoDownloadLink) /\
        submissions evs = [initialRequest p] /\ downloads evs = []
    | long =>
        submissions evs = [initialRequest p; extensionRequest p v]
    end.
Proof.
  intros Hk (w0 & G & L) V U fuel out w' evs Hfuel H.
  destruct (polling_quiet L) as (Q1 & Q2 & Q3 & Q4).
  rewrite generateVideoFromImage_run, Hk, tryBlock_run in H. cbv zeta in H.
  rewrite G, (polling_pollUntilDone L) in H by (try discriminate; exact Hfuel).
  assert (D : JS.truthy (downloadLinkOf completed1) = None).
  { unfold downloadLinkOf. rewrite V. exact U. }
  destruct (duration p).
  - rewrite D in H. inversion H; subst. repeat split; events_norm; reflexivity.
  - rewrite V in H. cbv zeta in H.
    destruct (generateVideos remote _ (extensionRequest p v) w1) as [[e|op2] w2].
    { inversion H; subst. events_norm. reflexivity. }
    destruct (pollUntilDone remote fuel _ op2 w2) as [[[completed2|e|] w3] loop2] eqn:L2;
      destruct (pollUntilDone_quiet _ _ _ _ L2) as (R1 & R2 & R3 & R4).
    2,3: inversion H; subst; events_norm; reflexivity.
    destruct (JS.truthy (downloadLinkOf completed2)) as [link|].
    2: { inversion H; subst. events_norm. reflexivity. }
    destruct (fetchAndCreateUrl remote link apiKey w3) as [[o w4] evsD] eqn:F.
    destruct (fetchAndCreateUrl_quiet _ _ _ F) as (D1 & D2 & D3 & D4 & D5).
    inversion H; subst. events_norm. reflexivity.
Qed.

End Claims.

(** ** Runs against the scripted service *)

Lemma missing_credential_no_remote_call_witness :
  JS.truthy None = None /\
  generateVideoFromImage Scripted.remote 3 None (Scripted.request long)
    Scripted.longWorld =
    (Rejected (newError errNoApiKey), Scripted.longWorld, []).
Proof.
  split; [reflexivity|].
  exact (proj1 (missing_credential_no_remote_call Scripted.remote 3 None
                  (Scripted.request long) Scripted.longWorld eq_refl)).
Defined.

Lemma short_run_one_stage_witness :
  duration (Scripted.request short) = short /\
  JS.truthy Scripted.key = Some "k" /\
  shortRun Scripted.remote Scripted.ai "k" (Scripted.request short)
    Scripted.shortWorld
    (snd (generateVideoFromImage Scripted.remote 5 Scripted.key
            (Scripted.request short) Scripted.shortWorld))
    "blob:bytes" Scripted.exhausted.
Proof.
  split; [reflexivity|]. split; [reflexivity|].
  destruct (short_run_one_stage Scripted.remote Scripted.key
              (Scripted.request short) Scripted.shortWorld eq_refl eq_refl)
    as [A _].
  destruct (A 5 (Resolved "blob:bytes") Scripted.exhausted _ eq_refl) as [_ B].
  exact (proj1 (B "blob:bytes" eq_refl)).
Defined.

Lemma long_run_two_stages_witness :
  duration (Scripted.request long) = long /\
  JS.truthy Scripted.key = Some "k" /\
  longRun Scripted.remote Scripted.ai "k" (Scripted.request long)
    Scripted.longWorld
    (snd (generateVideoFromImage Scripted.remote 5 Scripted.key
            (Scripted.request long) Scripted.longWorld))
    "blob:bytes" Scripted.exhausted.
Proof.
  split; [reflexivity|]. split; [reflexivity|].
  destruct (long_run_two_stages Scripted.remote Scripted.key
              (Scripted.request long) Scripted.longWorld eq_refl eq_refl)
    as [A _].
  destruct (A 5 (Resolved "blob:bytes") Scripted.exhausted _ eq_refl) as [_ B].
  exact (proj1 (B "blob:bytes" eq_refl)).
Defined.

Lemma progress_in_milestone_order_witness :
  progressOf (snd (generateVideoFromImage Scripted.remote 5 Scripted.key
                     (Scripted.request long) Scripted.longWorld)) =
    milestones long /\
  NoDup (progressOf (snd (generateVideoFromImage Scripted.remote 5 Scripted.key
                            (Scripted.request long) Scripted.longWorld))).
Proof.
  split; [reflexivity|].
  exact (proj1 (proj2 (progress_in_milestone_order Scripted.remote 5 Scripted.key
                         (Scripted.request long) Scripted.longWorld
                         (out := Resolved "blob:bytes") (w' := Scripted.exhausted)
                         eq_refl))).
Defined.

Lemma missing_result_no_download_witness :
  JS.truthy Scripted.key = Some "k" /\
  completesWithoutResult Scripted.remote Scripted.ai (Scripted.request short)
    Scripted.noVideoWorld INITIAL 0 Scripted.exhausted /\
  exists evs,
    generateVideoFromImage Scripted.remote 0 Scripted.key (Scripted.request short)
      Scripted.noVideoWorld =
      (Rejected (newError errNoDownloadLink), Scripted.exhausted, evs) /\
    downloads evs = [] /\ classified evs = [newError errNoDownloadLink].
Proof.
  assert (C : completesWithoutResult Scripted.remote Scripted.ai
                (Scripted.request short) Scripted.noVideoWorld INITIAL 0
                Scripted.exhausted).
  { exists (Scripted.finished "op1" None), [], (Scripted.finished "op1" None).
    split; [|split; reflexivity].
    exists Scripted.exhausted. split; [reflexivity|].
    apply polling_done. reflexivity. }
  split; [reflexivity|]. split; [exact C|].
  exact (missing_result_no_download Scripted.remote Scripted.key
           (Scripted.request short) Scripted.noVideoWorld INITIAL
           Scripted.exhausted eq_refl C (le_n 0)).
Defined.

(** C9, as the spec has it, fails: the first operation of this long run
    completes without a video, the run is rejected for that, and the
    extending text has been emitted. *)
Lemma extending_emitted_without_initial_video :
  generateVideoFromImage Scripted.remote 0 Scripted.key (Scripted.request long)
    Scripted.noVideoWorld =
    (Rejected (newError errNoInitialVideo), Scripted.exhausted,
     [Progress msgWarmingUp;
      Submit Scripted.ai (initialRequest (Scripted.request long))
        (inr (Scripted.finished "op1" None));
      Progress msgGenerating; Progress msgFinalizing; Wait settleDelay;
      Progress msgExtending; ConsoleError (newError errNoInitialVideo)]) /\
  firstVideo (Scripted.finished "op1" None) = None /\
  In msgExtending
    (progressOf (snd (generateVideoFromImage Scripted.remote 0 Scripted.key
                        (Scripted.request long) Scripted.noVideoWorld))).
Proof.
  split; [reflexivity|]. split; [reflexivity|].
  cbn. right. right. right. left. reflexivity.
Qed.

Lemma extending_announced_before_validation_witness :
  duration (Scripted.request long) = long /\
  JS.truthy Scripted.key = Some "k" /\
  generateVideoFromImage Scripted.remote 0 Scripted.key (Scripted.request long)
    Scripted.noVideoWorld =
    (Rejected (newError errNoInitialVideo), Scripted.exhausted,
     Progress msgWarmingUp
       :: Submit Scripted.ai (initialRequest (Scripted.request long))
            (inr (Scripted.finished "op1" None))
       :: Progress msgGenerating
       :: [] ++ [Progress msgFinalizing; Wait settleDelay; Progress msgExtending;
                 ConsoleError (newError errNoInitialVideo)]) /\
  In msgExtending
    (progressOf (snd (generateVideoFromImage Scripted.remote 5 Scripted.key
                        (Scripted.request long) Scripted.longWorld))).
Proof.
  split; [reflexivity|]. split; [reflexivity|]. split.
  - refine (proj2 (proj2 (extending_announced_before_validation Scripted.remote
                            Scripted.key (Scripted.request long)
                            Scripted.noVideoWorld eq_refl eq_refl))
              (Scripted.finished "op1" None) [] (Scripted.finished "op1" None)
              Scripted.exhausted _ eq_refl 0 (le_n 0)).
    exists Scripted.exhausted. split; [reflexivity|]. apply polling_done. reflexivity.
  - refine (proj1 (proj1 (proj2 (extending_announced_before_validation Scripted.remote
                                   Scripted.key (Scripted.request long)
                                   Scripted.longWorld eq_refl eq_refl))
                     (Scripted.running "op1")
                     [Wait pollInterval;
                      Poll Scripted.ai (Scripted.running "op1")
                        (inr (Scripted.finished "op1"
                                (Some (Scripted.clip "https://v/1?alt=media"))))]
                     (Scripted.finished "op1"
                        (Some (Scripted.clip "https://v/1?alt=media")))
                     {| Scripted.submitReplies := [inr (Scripted.running "op2")];
                        Scripted.pollReplies :=
                          [inr (Scripted.running "op2");
                           inr (Scripted.finished "op2"
                                  (Some (Scripted.clip "https://v/2?alt=media")))];
                        Scripted.fetchReplies := [inr Scripted.okResponse];
                        Scripted.blobReplies := [inr "bytes"] |}
                     _ 5 (Resolved "blob:bytes") Scripted.exhausted
                     (snd (generateVideoFromImage Scripted.remote 5 Scripted.key
                             (Scripted.request long) Scripted.longWorld))
                     _ eq_refl)).
    + eexists. split; [reflexivity|].
      eapply polling_next; [reflexivity|reflexivity|].
      apply polling_done. reflexivity.
    + cbn. repeat constructor.
Defined.

Lemma stage_requests_differ_in_model_witness :
  map model
    (submissions (snd (generateVideoFromImage Scripted.remote 5 Scripted.key
                         (Scripted.request long) Scripted.longWorld))) =
    ["veo-3.1-fast-generate-preview"; "veo-3.1-generate-preview"] /\
  config (extensionRequest (Scripted.request long)
            (Scripted.clip "https://v/1?alt=media")) =
    {| numberOfVideos := 1; resolution := "720p"; configAspectRatio := ratio_16_9 |}.
Proof.
  split; [reflexivity|].
  exact (proj1 (proj1 (stage_requests_differ_in_model Scripted.remote 5 Scripted.key
                         (Scripted.request long) Scripted.longWorld
                         (out := Resolved "blob:bytes") (w' := Scripted.exhausted)
                         eq_refl)
                  1 (extensionRequest (Scripted.request long)
                       (Scripted.clip "https://v/1?alt=media")) eq_refl)).
Defined.

(** C6 on a refused download. The rejection of [fetchAndCreateUrl] reaches
    the caller as it was thrown: nothing is logged by the [catch] block,
    and the message is not the one the classifier gives for it. *)
Lemma refused_download_not_classified :
  generateVideoFromImage Scripted.remote 0 Scripted.key (Scripted.request short)
    Scripted.refusedDownloadWorld =
    (Rejected (newError "Failed to download video: 429 Too Many Requests"),
     Scripted.exhausted,
     [Progress msgWarmingUp;
      Submit Scripted.ai (initialRequest (Scripted.request short))
        (inr (Scripted.finished "op1" (Some (Scripted.clip "https://v/1?alt=media"))));
      Progress msgGenerating; Progress msgDownloading;
      Fetch "https://v/1?alt=media&key=k"
        (inr {| ok := false; statusText := "429 Too Many Requests" |})]) /\
  classified (snd (generateVideoFromImage Scripted.remote 0 Scripted.key
                     (Scripted.request short) Scripted.refusedDownloadWorld)) = [] /\
  classify (newError "Failed to download video: 429 Too Many Requests") =
    {| kind := RateLimited; text := rateLimitText |}.
Proof. repeat split. Qed.

(** ** More on the classifier and the service, on the scripted service *)

Lemma truthy_Some (x : option string) (m : string) :
  JS.truthy x = Some m -> x = Some m /\ m <> EmptyString.
Proof.
  destruct x as [[|c s]|]; simpl; intros H; inversion H; subst.
  split; [reflexivity|discriminate].
Qed.

(** The texts of the classifier. *)
Lemma classify_text_facts (e : JsError) :
  text (classify e) <> EmptyString /\
  classify (newError (text (classify e))) =
    {| kind := Unknown; text := text (classify e) |}.
Proof.
  unfold classify at 1 3 4. unfold JS.orElse.
  destruct (JS.truthy (message e)) as [m|] eqn:T.
  - destruct (truthy_Some _ T) as [_ NE].
    destruct (JS.includes m "RESOURCE_EXHAUSTED" || JS.includes m "429") eqn:R.
    { split; [discriminate|vm_compute; reflexivity]. }
    destruct (JS.includes m "Requested entity was not found") eqn:N.
    { split; [discriminate|vm_compute; reflexivity]. }
    cbn [text]. split; [exact NE|].
    apply orb_false_iff in R. destruct R as [R1 R2].
    rewrite (classify_unmatched _ R1 R2 N).
    destruct m; [now elim NE|reflexivity].
  - cbn [text]. split; [discriminate|vm_compute; reflexivity].
Qed.

(** X6. The message the [catch] block throws is never empty, and classifying it
    again leaves it as it is. *)
Theorem classify_text_stable (e : JsError) :
  text (classify e) <> EmptyString /\
  classify (newError (text (classify e))) =
    {| kind := Unknown; text := text (classify e) |}.
Proof. exact (classify_text_facts e). Qed.

Lemma rejection_paths_witness :
  JS.truthy Scripted.key = Some "k" /\
  exists e,
    classified (snd (generateVideoFromImage Scripted.remote 0 Scripted.key
                       (Scripted.request short) Scripted.exhausted)) = [e] /\
    newError "no reply scripted" = newError (text (classify e)).
Proof.
  split; [reflexivity|].
  destruct (rejection_paths Scripted.remote 0 Scripted.key (Scripted.request short)
              Scripted.exhausted (err := newError "no reply scripted")
              (w' := Scripted.exhausted)
              (evs := snd (generateVideoFromImage Scripted.remote 0 Scripted.key
                             (Scripted.request short) Scripted.exhausted))
              eq_refl eq_refl)
    as [(_ & e & E1 & E2)|(link & D & _)].
  - exists e. split; [exact E1|exact E2].
  - discriminate D.
Defined.

(** ** Data URLs *)

Lemma split_not_nil (sep : ascii) (s : string) : split sep s <> [].
Proof.
  destruct s as [|c s]; simpl; [discriminate|].
  destruct (Ascii.eqb c sep); [discriminate|].
  destruct (split sep s); discriminate.
Qed.

Lemma split_cons (sep c : ascii) (s : string) :
  Ascii.eqb c sep = false ->
  exists piece pieces,
    split sep s = piece :: pieces /\
    split sep (String c s) = String c piece :: pieces.
Proof.
  intros E. simpl. rewrite E.
  destruct (split sep s) as [|piece pieces] eqn:S; [now elim (split_not_nil sep s)|].
  exists piece, pieces. split; reflexivity.
Qed.

Lemma split_prefix (sep : ascii) (a b : string) :
  hasChar sep a = false ->
  split sep (a ++ String sep b) = a :: split sep b.
Proof.
  induction a as [|c a IH]; simpl; intros H.
  - rewrite Ascii.eqb_refl. reflexivity.
  - apply orb_false_iff in H. destruct H as [E H].
    rewrite E, (IH H). reflexivity.
Qed.

Lemma split_whole (sep : ascii) (s : string) :
  hasChar sep s = false -> split sep s = [s].
Proof.
  induction s as [|c s IH]; simpl; intros H; [reflexivity|].
  apply orb_false_iff in H. destruct H as [E H].
  rewrite E, (IH H). reflexivity.
Qed.

(** Splitting at a character loses nothing: the pieces do not contain the
    character, and joined with it they give the string back. *)
Lemma join_split (sep : ascii) (s : string) :
  join sep (split sep s) = s /\
  Forall (fun piece => hasChar sep piece = false) (split sep s).
Proof.
  induction s as [|c s [IH1 IH2]]; [split; [reflexivity|repeat constructor]|].
  destruct (Ascii.eqb c sep) eqn:E.
  - apply Ascii.eqb_eq in E. subst c. cbn [split]. rewrite Ascii.eqb_refl.
    split; [|constructor; [reflexivity|exact IH2]].
    destruct (split sep s) as [|piece pieces] eqn:S; [now elim (split_not_nil sep s)|].
    change (join sep (EmptyString :: piece :: pieces))
      with (EmptyString ++ String sep (join sep (piece :: pieces)))%string.
    rewrite IH1. reflexivity.
  - destruct (@split_cons sep c s E) as (piece & pieces & S1 & S2). rewrite S2.
    rewrite S1 in IH1, IH2. inversion IH2 as [|? ? P1 P2]. split.
    + destruct pieces as [|q qs]; cbn [join] in IH1 |- *; rewrite <- IH1; reflexivity.
    + constructor; [|exact P2]. cbn [hasChar]. rewrite E, P1. reflexivity.
Qed.

Section ReaderFacts.

Context {World : Type}.
Variable readAsDataURL : File -> World -> (JsError + string) * World.

(** X7. [fileToBase64] gives the text between the first and the second comma of
    what the reader has read: of a data URL [header,payload] with no comma
    in its header that is the payload, cut at its first comma if it has one;
    of a result without a comma it is [undefined]; and an error of the
    reader rejects the promise with the reader's event. *)
Theorem fileToBase64_payload (file : File) (w : World) :
  (forall header payload w1,
     readAsDataURL file w = (inr (header ++ String "," payload)%string, w1) ->
     hasChar "," header = false ->
     fileToBase64 readAsDataURL file w =
       (Resolved (Some (hd EmptyString (split "," payload))), w1, []) /\
     (hasChar "," payload = false ->
      fileToBase64 readAsDataURL file w = (Resolved (Some payload), w1, []))) /\
  (forall result w1,
     readAsDataURL file w = (inr result, w1) ->
     hasChar "," result = false ->
     fileToBase64 readAsDataURL file w = (Resolved None, w1, [])) /\
  (forall event w1,
     readAsDataURL file w = (inl event, w1) ->
     fileToBase64 readAsDataURL file w = (Rejected event, w1, [])).
Proof.
  unfold fileToBase64. split; [|split].
  - intros header payload w1 R H. rewrite R, (@split_prefix "," header payload H).
    assert (E : nth_error (header :: split "," payload) 1 =
                Some (hd EmptyString (split "," payload))).
    { destruct (split "," payload) eqn:S; [now elim (split_not_nil "," payload)|].
      reflexivity. }
    rewrite E. split; [reflexivity|].
    intros P. rewrite (@split_whole "," payload P). reflexivity.
  - intros result w1 R H. rewrite R, (@split_whole "," result H). reflexivity.
  - intros event w1 R. rewrite R. reflexivity.
Qed.

End ReaderFacts.

Lemma fileToBase64_payload_witness :
  hasChar "," "data:image/png;base64" = false /\
  fileToBase64 ScriptedPage.readAsDataURL ScriptedPage.photo Scripted.exhausted =
    (Resolved (Some "aGVsbG8="), Scripted.exhausted, []).
Proof.
  split; [reflexivity|].
  exact (proj2 (proj1 (fileToBase64_payload ScriptedPage.readAsDataURL
                         ScriptedPage.photo Scripted.exhausted)
                  "data:image/png;base64" "aGVsbG8=" Scripted.exhausted
                  eq_refl eq_refl) eq_refl).
Defined.

(** ** The page *)

Section PageFacts.

Context {World : Type}.
Variable remote : Remote World.
Variable helpers : App.Helpers World.

Lemma last_cons_default (l : list string) (a d : string) :
  last (a :: l) d = last l a.
Proof.
  revert a d. induction l as [|b l IH]; intros a d; [reflexivity|].
  change (last (a :: b :: l) d) with (last (b :: l) d).
  rewrite (IH b d), (IH b a). reflexivity.
Qed.

(** Showing progress changes the loading message and nothing else. *)
Lemma progressed_fields (evs : list Event) (s : App.State) :
  App.apiKeySelected (App.progressed evs s) = App.apiKeySelected s /\
  App.isLoading (App.progressed evs s) = App.isLoading s /\
  App.generatedVideoUrl (App.progressed evs s) = App.generatedVideoUrl s /\
  App.error (App.progressed evs s) = App.error s /\
  App.mediaFile (App.progressed evs s) = App.mediaFile s /\
  App.mediaType (App.progressed evs s) = App.mediaType s /\
  App.mediaPreviewUrl (App.progressed evs s) = App.mediaPreviewUrl s /\
  App.prompt (App.progressed evs s) = App.prompt s /\
  App.loadingMessage (App.progressed evs s) =
    last (progressOf evs) (App.loadingMessage s).
Proof.
  unfold App.progressed. generalize (progressOf evs) as l. intros l. revert s.
  induction l as [|t l IH]; intros s; [repeat split|].
  cbn [fold_left]. destruct (IH (App.setLoadingMessage t s))
    as (I1 & I2 & I3 & I4 & I5 & I6 & I7 & I8 & I9).
  rewrite I1, I2, I3, I4, I5, I6, I7, I8, I9. repeat split.
  cbn [App.setLoadingMessage App.loadingMessage].
  symmetry. apply last_cons_default.
Qed.

(** The end of a run of the handler whose [try] block has thrown [e]. *)
Lemma showError_run (e : JsError) (s : App.State) (w : World) :
  App.showError e (s, w) =
    match message e with
    | None => (Rejected App.typeErrorIncludes, (s, w), [])
    | Some m =>
        if JS.includes m "API key" then
          (Resolved tt,
           (App.setApiKeySelected false (App.setError (Some App.errApiKey) s), w), [])
        else
          (Resolved tt,
           (App.setError (Some (JS.orElse (message e) App.errUnknown)) s, w), [])
    end.
Proof.
  unfold App.showError. destruct (message e) as [m|]; [|reflexivity].
  destruct (JS.includes m "API key"); reflexivity.
Qed.

(** [handleGenerateClick], call by call, once its guard is passed. *)
Lemma handleGenerateClick_run (fuel : nat) (API_KEY : option string)
  (s : App.State) (w : World) (file : File) :
  App.prompt s <> EmptyString ->
  App.mediaFile s = Some file ->
  App.handleGenerateClick remote helpers fuel API_KEY (s, w) =
    let caught e s2 w2 evs :=
      let '(out, page3, _) := App.showError e (s2, w2) in
      (out, (App.setIsLoading false (fst page3), snd page3), evs) in
    let serve input s2 w1 :=
      match generateVideoFromImage remote fuel API_KEY (App.paramsOf s input) w1 with
      | (Resolved url, w2, evs) =>
          (Resolved tt,
           (App.setIsLoading false
              (App.setGeneratedVideoUrl (Some url) (App.progressed evs s2)), w2),
           evs)
      | (Rejected e, w2, evs) => caught e (App.progressed evs s2) w2 evs
      | (Pending, w2, evs) => (Pending, (App.progressed evs s2, w2), evs)
      end in
    match App.mediaType s with
    | None => caught (newError App.errInvalidMediaType) (App.started s) w []
    | Some App.image =>
        match App.fileToBase64 helpers file w with
        | (Resolved imageBase64, w1) =>
            serve (imageBase64, fileType file) (App.started s) w1
        | (Rejected e, w1) => caught e (App.started s) w1 []
        | (Pending, w1) => (Pending, (App.started s, w1), [])
        end
    | Some App.video =>
        match App.extractFrameFromVideo helpers file w with
        | (Resolved frameData, w1) =>
            serve (App.base64 frameData, App.mimeType frameData)
              (App.setLoadingMessage App.msgExtractingFrame (App.started s)) w1
        | (Rejected e, w1) =>
            caught e (App.setLoadingMessage App.msgExtractingFrame (App.started s)) w1 []
        | (Pending, w1) =>
            (Pending,
             (App.setLoadingMessage App.msgExtractingFrame (App.started s), w1), [])
        end
    end.
Proof.
  intros Hp Hf. unfold App.handleGenerateClick. cbn [fst snd].
  destruct (App.prompt s) as [|c rest] eqn:P; [now elim Hp|]. cbn [JS.truthy].
  rewrite Hf. cbv zeta.
  unfold App.tryCatchFinally, tryCatch, bind, App.set, App.settle, App.withProgress,
    ret, throw. cbn [fst snd].
  fold (App.started s). rewrite <- P.
  destruct (App.mediaType s) as [[|]|]; cbn [fst snd app].
  - destruct (App.fileToBase64 helpers file w) as [[b|e|] w1]; cbn [fst snd app].
    + unfold App.paramsOf. cbn [fst snd].
      destruct (generateVideoFromImage remote fuel API_KEY _ w1)
        as [[[url|e|] w2] evs]; cbn [fst snd app]; fold (App.progressed evs (App.started s));
        rewrite ?app_nil_r; try reflexivity.
      rewrite showError_run. destruct (message e) as [m|]; [|list_norm; reflexivity].
      destruct (JS.includes m "API key"); list_norm; reflexivity.
    + rewrite showError_run. destruct (message e) as [m|]; [|reflexivity].
      destruct (JS.includes m "API key"); reflexivity.
    + reflexivity.
  - destruct (App.extractFrameFromVideo helpers file w) as [[fd|e|] w1];
      cbn [fst snd app].
    + unfold App.paramsOf. cbn [fst snd].
      destruct (generateVideoFromImage remote fuel API_KEY _ w1)
        as [[[url|e|] w2] evs]; cbn [fst snd app];
        fold (App.progressed evs
                (App.setLoadingMessage App.msgExtractingFrame (App.started s)));
        rewrite ?app_nil_r; try reflexivity.
      rewrite showError_run. destruct (message e) as [m|]; [|list_norm; reflexivity].
      destruct (JS.includes m "API key"); list_norm; reflexivity.
    + rewrite showError_run. destruct (message e) as [m|]; [|reflexivity].
      destruct (JS.includes m "API key"); reflexivity.
    + reflexivity.
  - reflexivity.
Qed.

(** Case analysis of a run of the handler along its calls. *)
Ltac page_cases H :=
  erewrite handleGenerateClick_run in H by eassumption; cbv zeta in H;
  repeat match type of H with
    | context [match App.mediaType ?s with _ => _ end] =>
        let M := fresh "M" in destruct (App.mediaType s) as [[|]|] eqn:M
    | context [App.fileToBase64 ?h ?f ?w] =>
        let R := fresh "R" in
        destruct (App.fileToBase64 h f w) as [[?b|?e|] ?w] eqn:R
    | context [App.extractFrameFromVideo ?h ?f ?w] =>
        let R := fresh "R" in
        destruct (App.extractFrameFromVideo h f w) as [[?fd|?e|] ?w] eqn:R
    | context [generateVideoFromImage ?r ?n ?k ?p ?w] =>
        let G := fresh "G" in
        destruct (generateVideoFromImage r n k p w) as [[[?url|?e|] ?w] ?evs] eqn:G
    | context [App.showError ?e ?pg] =>
        rewrite (showError_run e) in H;
        let E := fresh "E" in
        destruct (message e) as [?m|] eqn:E;
        [ let I := fresh "I" in destruct (JS.includes _ "API key") eqn:I | ]
    end;
  cbn [fst snd] in H; inversion H; subst; clear H.

(** Reads the fields of the state at the end of a run. *)
Ltac fields :=
  cbn [fst snd];
  cbn [App.setIsLoading App.setError App.setApiKeySelected App.setGeneratedVideoUrl
       App.setLoadingMessage App.started
       App.isLoading App.error App.apiKeySelected App.generatedVideoUrl
       App.loadingMessage App.mediaFile App.mediaType App.prompt
       App.mediaPreviewUrl];
  repeat match goal with
    | |- context [App.progressed ?evs ?s] =>
        let F := fresh "F" in
        pose proof (progressed_fields evs s) as F;
        destruct F as (? & ? & ? & ? & ? & ? & ? & ? & ?);
        generalize dependent (App.progressed evs s); intros
    end;
  cbn [App.setIsLoading App.setError App.setApiKeySelected App.setGeneratedVideoUrl
       App.setLoadingMessage App.started
       App.isLoading App.error App.apiKeySelected App.generatedVideoUrl
       App.loadingMessage App.mediaFile App.mediaType App.prompt
       App.mediaPreviewUrl] in *;
  repeat match goal with
    | E : ?f ?x = _ |- context [?f ?x] => is_var x; rewrite E
    end.

(** X8. Without a prompt or a file the handler only shows its message, and the
    button that calls it is enabled only with both, when nothing is loading. *)
Theorem generate_guard (fuel : nat) (API_KEY : option string) (s : App.State)
  (w : World) :
  (App.prompt s = EmptyString \/ App.mediaFile s = None ->
   App.handleGenerateClick remote helpers fuel API_KEY (s, w) =
     (Resolved tt, (App.setError (Some App.errNoInput) s, w), [])) /\
  (forall panel shown,
     App.render s = App.MainScreen panel false shown ->
     App.prompt s <> EmptyString /\ App.mediaFile s <> None /\
     App.isLoading s = false /\ App.apiKeySelected s = true).
Proof.
  split.
  - intros H. unfold App.handleGenerateClick. cbn [fst snd].
    destruct H as [H|H]; rewrite H; [reflexivity|].
    destruct (JS.truthy (Some (App.prompt s))); reflexivity.
  - intros panel shown H. unfold App.render in H.
    destruct (App.apiKeySelected s); [|discriminate]. cbn [negb] in H.
    inversion H as [[H1 H2 H3]]. clear H H1 H3.
    destruct (App.isLoading s); [discriminate|].
    destruct (App.prompt s) as [|c r]; [discriminate|].
    destruct (App.mediaFile s); [|discriminate].
    repeat split; discriminate.
Qed.

(** X9. The loading flag is up exactly while the handler is waiting: a run that
    has settled has cleared it, and one that has not shows the spinner with
    the last progress text and keeps the button disabled. *)
Theorem loading_flag (fuel : nat) (API_KEY : option string) (s : App.State)
  (w : World) (file : File) (out : Outcome unit) (s' : App.State) (w' : World)
  (evs : list Event) :
  App.prompt s <> EmptyString ->
  App.mediaFile s = Some file ->
  App.handleGenerateClick remote helpers fuel API_KEY (s, w) = (out, (s', w'), evs) ->
  (out = Pending <-> App.isLoading s' = true) /\
  (out = Pending -> App.apiKeySelected s = true ->
   App.render s' = App.MainScreen (App.Loading (App.loadingMessage s')) true None /\
   (progressOf evs <> [] -> App.loadingMessage s' = last (progressOf evs) EmptyString)).
Proof.
  intros Hp Hf H. page_cases H; fields;
    (split; [split; intros; first [discriminate | reflexivity]|]);
    intros; try discriminate;
    unfold App.render; fields; cbn [negb JS.truthy orb];
    (split; [reflexivity|]); intros NE; cbn [progressOf] in NE;
    try (now elim NE);
    destruct (progressOf _) as [|t l]; try (now elim NE);
    rewrite ?last_cons_default; reflexivity.
Qed.

Lemma orElse_not_empty (x : option string) (d : string) :
  d <> EmptyString -> JS.orElse x d <> EmptyString.
Proof.
  intros H. unfold JS.orElse. destruct x as [[|c r]|]; simpl; auto. discriminate.
Qed.

(** X10. When the handler has returned, the page has either the URL the service
    resolved with and no error, or a message that is not empty and no URL;
    the one run that ends with neither is the one whose caught value has no
    message, and that run rejects with the [TypeError] of the [catch] block. *)
Theorem video_or_message (fuel : nat) (API_KEY : option string) (s : App.State)
  (w : World) (file : File) (out : Outcome unit) (s' : App.State) (w' : World)
  (evs : list Event) :
  App.prompt s <> EmptyString ->
  App.mediaFile s = Some file ->
  App.handleGenerateClick remote helpers fuel API_KEY (s, w) = (out, (s', w'), evs) ->
  match out with
  | Resolved _ =>
      (exists url,
         App.generatedVideoUrl s' = Some url /\ App.error s' = None /\
         exists input w1,
           generateVideoFromImage remote fuel API_KEY (App.paramsOf s input) w1 =
             (Resolved url, w', evs)) \/
      (App.generatedVideoUrl s' = None /\
       exists msg, App.error s' = Some msg /\ msg <> EmptyString)
  | Rejected e =>
      e = App.typeErrorIncludes /\
      App.generatedVideoUrl s' = None /\ App.error s' = None
  | Pending => App.generatedVideoUrl s' = None /\ App.error s' = None
  end.
Proof.
  intros Hp Hf H. page_cases H;
    try (left; eexists; fields; split; [reflexivity|]; split; [reflexivity|];
         eexists _, _; eassumption);
    try (right; fields; split; [reflexivity|]; eexists; split; [reflexivity|];
         first [discriminate | apply orElse_not_empty; discriminate]);
    fields; repeat split; reflexivity.
Qed.

Lemma missing_key_on_page_aux (fuel : nat) (API_KEY : option string)
  (s : App.State) (w : World) (file : File) (input : string * string) (w1 : World) :
  JS.truthy API_KEY = None ->
  App.prompt s <> EmptyString ->
  App.mediaFile s = Some file ->
  App.inputReady helpers s file w input w1 ->
  exists s',
    App.handleGenerateClick remote helpers fuel API_KEY (s, w) =
      (Resolved tt, (s', w1), []) /\
    App.render s' = App.KeyScreen (Some App.errApiKey).
Proof.
  intros Hk Hp Hf R. erewrite handleGenerateClick_run by eassumption. cbv zeta.
  unfold App.inputReady in R.
  destruct (App.mediaType s) as [[|]|]; [| |elim R].
  - destruct R as [R E]. destruct input as [b m]. cbn [fst snd] in R, E. subst m.
    rewrite R, generateVideoFromImage_run, Hk, showError_run.
    eexists. split; reflexivity.
  - destruct input as [b m]. cbn [fst snd] in R.
    rewrite R. cbn [App.base64 App.mimeType].
    rewrite generateVideoFromImage_run, Hk, showError_run.
    eexists. split; reflexivity.
Qed.

(** X11. Without a key, once the image is read, the page goes to the key screen
    with the key message: the service is not called at all. *)
Theorem missing_key_on_page (fuel : nat) (API_KEY : option string) (s : App.State)
  (w : World) (file : File) (input : string * string) (w1 : World) :
  App.prompt s <> EmptyString ->
  App.mediaFile s = Some file ->
  JS.truthy API_KEY = None ->
  App.inputReady helpers s file w input w1 ->
  exists s',
    App.handleGenerateClick remote helpers fuel API_KEY (s, w) =
      (Resolved tt, (s', w1), []) /\
    App.render s' = App.KeyScreen (Some App.errApiKey) /\
    App.isLoading s' = false /\ App.generatedVideoUrl s' = None.
Proof.
  intros Hp Hf Hk R. erewrite handleGenerateClick_run by eassumption. cbv zeta.
  unfold App.inputReady in R.
  destruct (App.mediaType s) as [[|]|]; [| |elim R].
  - destruct R as [R E]. destruct input as [b m]. cbn [fst snd] in R, E. subst m.
    rewrite R, generateVideoFromImage_run, Hk, showError_run.
    eexists. split; [reflexivity|]. repeat split.
  - destruct input as [b m]. cbn [fst snd] in R.
    rewrite R. cbn [App.base64 App.mimeType].
    rewrite generateVideoFromImage_run, Hk, showError_run.
    eexists. split; [reflexivity|]. repeat split.
Qed.

(** X12. An error that comes out of the [catch] block of the service, on the
    page: the rate-limit message is shown and the key is kept; the
    invalid-key message is replaced by the key message and the key is
    dropped; any other message is shown as it is, unless "API key" occurs
    in it, which drops the key as well. *)
Theorem classified_error_on_page (fuel : nat) (API_KEY : option string)
  (s : App.State) (w : World) (file : File) (input : string * string) (w1 : World)
  (e : JsError) (w2 : World) (evs : list Event) :
  App.prompt s <> EmptyString ->
  App.mediaFile s = Some file ->
  App.inputReady helpers s file w input w1 ->
  generateVideoFromImage remote fuel API_KEY (App.paramsOf s input) w1 =
    (Rejected (newError (text (classify e))), w2, evs) ->
  exists s',
    App.handleGenerateClick remote helpers fuel API_KEY (s, w) =
      (Resolved tt, (s', w2), evs) /\
    App.isLoading s' = false /\ App.generatedVideoUrl s' = None /\
    match kind (classify e) with
    | RateLimited =>
        App.error s' = Some rateLimitText /\
        App.apiKeySelected s' = App.apiKeySelected s
    | InvalidCredential =>
        App.error s' = Some App.errApiKey /\ App.apiKeySelected s' = false
    | _ =>
        if JS.includes (text (classify e)) "API key" then
          App.error s' = Some App.errApiKey /\ App.apiKeySelected s' = false
        else
          App.error s' = Some (text (classify e)) /\
          App.apiKeySelected s' = App.apiKeySelected s
    end.
Proof.
  intros Hp Hf R G. erewrite handleGenerateClick_run by eassumption. cbv zeta.
  assert (K : forall s2,
            exists s',
              (let '(out, page3, _) :=
                 App.showError (newError (text (classify e)))
                   (App.progressed evs s2, w2) in
               (out, (App.setIsLoading false (fst page3), snd page3), evs)) =
                (Resolved tt, (s', w2), evs) /\
              App.isLoading s' = false /\
              App.generatedVideoUrl s' = App.generatedVideoUrl s2 /\
              match kind (classify e) with
              | RateLimited =>
                  App.error s' = Some rateLimitText /\
                  App.apiKeySelected s' = App.apiKeySelected s2
              | InvalidCredential =>
                  App.error s' = Some App.errApiKey /\ App.apiKeySelected s' = false
              | _ =>
                  if JS.includes (text (classify e)) "API key" then
                    App.error s' = Some App.errApiKey /\
                    App.apiKeySelected s' = false
                  else
                    App.error s' = Some (text (classify e)) /\
                    App.apiKeySelected s' = App.apiKeySelected s2
              end).
  { intros s2. rewrite showError_run. cbn [message newError].
    destruct (classify_text_facts e) as [NE _].
    assert (O : JS.orElse (Some (text (classify e))) App.errUnknown = text (classify e)).
    { unfold JS.orElse. destruct (text (classify e)); [now elim NE|reflexivity]. }
    rewrite O. clear O NE.
    unfold classify.
    destruct (JS.truthy (message e)) as [m|];
      [destruct (JS.includes m "RESOURCE_EXHAUSTED" || JS.includes m "429");
       [|destruct (JS.includes m "Requested entity was not found")]|];
      cbn [kind text].
    1,2: eexists; split; [reflexivity|]; fields; repeat split; reflexivity.
    all: destruct (JS.includes _ "API key"); eexists; (split; [reflexivity|]);
      fields; repeat split; reflexivity. }
  unfold App.inputReady in R.
  destruct (App.mediaType s) as [[|]|]; [| |elim R].
  - destruct R as [R E]. destruct input as [b m]. cbn [fst snd] in R, E. subst m.
    rewrite R, G. destruct (K (App.started s)) as (s' & K1 & K2 & K3 & K4).
    exists s'. repeat split; assumption.
  - destruct input as [b m]. cbn [fst snd] in R. rewrite R.
    cbn [App.base64 App.mimeType]. rewrite G.
    destruct (K (App.setLoadingMessage App.msgExtractingFrame (App.started s)))
      as (s' & K1 & K2 & K3 & K4).
    exists s'. repeat split; assumption.
Qed.

(** X13. A file reader that fails rejects with its event, which has no message:
    the page then shows no error at all, and the handler's own promise
    rejects. *)
Theorem reader_error_not_shown (fuel : nat) (API_KEY : option string)
  (s : App.State) (w : World) (file : File) (e : JsError) (w1 : World) :
  App.prompt s <> EmptyString ->
  App.mediaFile s = Some file ->
  App.mediaType s = Some App.image ->
  App.fileToBase64 helpers file w = (Rejected e, w1) ->
  message e = None ->
  exists s',
    App.handleGenerateClick remote helpers fuel API_KEY (s, w) =
      (Rejected App.typeErrorIncludes, (s', w1), []) /\
    App.error s' = None /\ App.generatedVideoUrl s' = None /\
    App.isLoading s' = false /\ App.apiKeySelected s' = App.apiKeySelected s.
Proof.
  intros Hp Hf M R E. erewrite handleGenerateClick_run by eassumption. cbv zeta.
  rewrite M, R, showError_run, E. eexists. split; [reflexivity|]. repeat split.
Qed.

(** [handleFileChange], call by call. *)
Lemma handleFileChange_run (file : File) (s : App.State) (w : World) :
  App.handleFileChange remote (Some file) (s, w) =
    let s1 := App.setMediaFile (Some file)
                (App.setGeneratedVideoUrl None (App.setError None s)) in
    let preview kind :=
      let '(objectUrl, w1) := createObjectURL remote (fileBytes file) w in
      (Resolved tt,
       (App.setMediaPreviewUrl (Some objectUrl) (App.setMediaType (Some kind) s1), w1),
       [CreateObjectURL (fileBytes file) objectUrl]) in
    if String.prefix "image/" (fileType file) then preview App.image
    else if String.prefix "video/" (fileType file) then preview App.video
    else
      (Resolved tt,
       (App.setError (Some App.errUnsupportedFile) (App.setMediaType None s1), w), []).
Proof.
  unfold App.handleFileChange, bind, App.set, ret. cbn [fst snd]. cbv zeta.
  destruct (String.prefix "image/" (fileType file)); cbn [fst snd app].
  - destruct (createObjectURL remote (fileBytes file) w). reflexivity.
  - destruct (String.prefix "video/" (fileType file)); cbn [fst snd app].
    + destruct (createObjectURL remote (fileBytes file) w). reflexivity.
    + reflexivity.
Qed.

(** X14. A chosen file is kept whatever its type. Its kind is read off the
    prefix of its type; a preview URL is made for an image or a video; for
    any other type the error is set, no URL is made, and the preview of the
    file chosen before stays in the state. *)
Theorem file_change_kinds (file : File) (s : App.State) (w : World)
  (out : Outcome unit) (s' : App.State) (w' : World) (evs : list Event) :
  App.handleFileChange remote (Some file) (s, w) = (out, (s', w'), evs) ->
  out = Resolved tt /\
  App.mediaFile s' = Some file /\ App.generatedVideoUrl s' = None /\
  (App.mediaType s' = Some App.image <->
   String.prefix "image/" (fileType file) = true) /\
  (App.mediaType s' = Some App.video <->
   String.prefix "image/" (fileType file) = false /\
   String.prefix "video/" (fileType file) = true) /\
  (App.mediaType s' = None <-> App.error s' = Some App.errUnsupportedFile) /\
  (App.mediaType s' = None ->
   App.mediaPreviewUrl s' = App.mediaPreviewUrl s /\ w' = w /\ evs = []) /\
  (App.mediaType s' <> None ->
   App.error s' = None /\
   (App.mediaPreviewUrl s', w') =
     (Some (fst (createObjectURL remote (fileBytes file) w)),
      snd (createObjectURL remote (fileBytes file) w)) /\
   objectUrls evs = [fst (createObjectURL remote (fileBytes file) w)]).
Proof.
  rewrite handleFileChange_run. cbv zeta. intros H.
  destruct (String.prefix "image/" (fileType file)) eqn:I;
    [|destruct (String.prefix "video/" (fileType file)) eqn:V];
    try (destruct (createObjectURL remote (fileBytes file) w) as [u w1]);
    inversion H; subst; clear H; cbn;
    repeat split; intros; try discriminate; try reflexivity; try tauto;
    try (destruct H; discriminate); try congruence.
Qed.

(** X15. After a file of an unsupported type is chosen, the button is still
    enabled for a page with a prompt; the click then ends with the
    invalid-type message, without a call to the outside. *)
Theorem unsupported_file_then_generate (fuel : nat) (API_KEY : option string)
  (file : File) (s : App.State) (w : World) :
  App.prompt s <> EmptyString ->
  String.prefix "image/" (fileType file) = false ->
  String.prefix "video/" (fileType file) = false ->
  exists s1 s2,
    App.handleFileChange remote (Some file) (s, w) = (Resolved tt, (s1, w), []) /\
    (App.apiKeySelected s = true -> App.isLoading s = false ->
     exists panel,
       App.render s1 = App.MainScreen panel false (Some App.errUnsupportedFile)) /\
    App.handleGenerateClick remote helpers fuel API_KEY (s1, w) =
      (Resolved tt, (s2, w), []) /\
    App.error s2 = Some App.errInvalidMediaType /\
    App.generatedVideoUrl s2 = None /\ App.isLoading s2 = false /\
    App.apiKeySelected s2 = App.apiKeySelected s.
Proof.
  intros Hp I V. rewrite handleFileChange_run. cbv zeta. rewrite I, V.
  eexists. eexists. split; [reflexivity|]. split.
  - intros A L. unfold App.render. cbn. rewrite A, L.
    destruct (App.prompt s) as [|c r]; [now elim Hp|]. cbn.
    eexists. reflexivity.
  - erewrite handleGenerateClick_run; [|exact Hp|reflexivity]. cbv zeta.
    cbn [App.mediaType App.setError App.setMediaType App.setMediaFile
         App.setGeneratedVideoUrl].
    rewrite showError_run. cbn [message newError].
    split; [reflexivity|]. repeat split.
Qed.

(** X16. What a click asks of the service. A run that submits anything has
    its input ready, and its first request is the initial request for the
    prompt, aspect ratio and duration of the page, with the image the
    helper gave: its bytes, and as its type the type of the file for an
    image, the type of the frame for a video. A later request carries no
    image but a video. Every request has the prompt of the page and the
    fixed configuration with the aspect ratio of the page. *)
Theorem requests_carry_page_input (fuel : nat) (API_KEY : option string)
  (s : App.State) (w : World) (file : File) (out : Outcome unit) (s' : App.State)
  (w' : World) (evs : list Event) :
  App.prompt s <> EmptyString ->
  App.mediaFile s = Some file ->
  App.handleGenerateClick remote helpers fuel API_KEY (s, w) = (out, (s', w'), evs) ->
  (forall r, In r (submissions evs) ->
     requestPrompt r = App.prompt s /\
     config r = {| numberOfVideos := 1; resolution := "720p";
                   configAspectRatio := App.aspectRatio s |}) /\
  (forall first, nth_error (submissions evs) 0 = Some first ->
     exists input w1,
       App.inputReady helpers s file w input w1 /\
       (App.mediaType s = Some App.image -> snd input = fileType file) /\
       first = initialRequest (App.paramsOf s input) /\
       model first = "veo-3.1-fast-generate-preview" /\
       requestImage first =
         Some {| imageBytes := fst input; mimeType := snd input |} /\
       requestVideo first = None) /\
  (forall i later, nth_error (submissions evs) (S i) = Some later ->
     requestImage later = None /\ requestVideo later <> None).
Proof.
  intros Hp Hf H.
  assert (K : forall input w1 o w2,
            generateVideoFromImage remote fuel API_KEY (App.paramsOf s input) w1 =
              (o, w2, evs) ->
            (forall r, In r (submissions evs) ->
               requestPrompt r = App.prompt s /\
               config r = fixedConfig (App.aspectRatio s)) /\
            (forall first, nth_error (submissions evs) 0 = Some first ->
               first = initialRequest (App.paramsOf s input)) /\
            (forall i later, nth_error (submissions evs) (S i) = Some later ->
               requestImage later = None /\ requestVideo later <> None)).
  { intros input w1 o w2 G.
    destruct (submissions_shape _ _ _ _ _ G) as [E|[E|(_ & v & E)]]; rewrite E.
    - split; [intros r []|]. split; [intros r N; discriminate N|].
      intros i r N. discriminate N.
    - split; [intros r [<-|[]]; split; reflexivity|].
      split; [intros r N; inversion N; reflexivity|].
      intros [|i] r N; discriminate N.
    - split; [intros r [<-|[<-|[]]]; split; reflexivity|].
      split; [intros r N; inversion N; reflexivity|].
      intros [|[|i]] r N; try discriminate N. inversion N. split; [reflexivity|].
      discriminate. }
  page_cases H;
    try (split; [intros r []|];
         split; [intros r N; discriminate N|intros i r N; discriminate N]);
    match goal with
    | G : generateVideoFromImage _ _ _ _ _ = _ |- _ =>
        destruct (K _ _ _ _ G) as (K1 & K2 & K3)
    end;
    (split; [exact K1|]); (split; [|exact K3]);
    intros first N; rewrite (K2 first N);
    match goal with
    | R : App.fileToBase64 _ _ _ = (Resolved ?b, ?w0) |- _ =>
        exists (b, fileType file), w0
    | R : App.extractFrameFromVideo _ _ _ = (Resolved ?fd, ?w0) |- _ =>
        exists (App.base64 fd, App.mimeType fd), w0
    end;
    (split;
     [ unfold App.inputReady;
       match goal with M : App.mediaType s = _ |- _ => rewrite M end;
       cbn [fst snd];
       try (split; [assumption|reflexivity]);
       match goal with
       | R : App.extractFrameFromVideo _ _ _ = (Resolved ?fd, _) |- _ =>
           destruct fd; exact R
       end
     | split; [intros T; first [reflexivity | discriminate T]|];
       repeat split ]).
Qed.

(** X17. The key screen is left by [handleSelectKey] exactly when the dialog of
    [aistudio] exists and has closed, whatever was chosen in it; the error
    is cleared then. Without [aistudio] nothing changes. *)
Theorem key_screen_exit (aistudio : option (App.AiStudio World)) (s : App.State)
  (w : World) (out : Outcome unit) (s' : App.State) (w' : World) (evs : list Event) :
  App.apiKeySelected s = false ->
  App.handleSelectKey aistudio (s, w) = (out, (s', w'), evs) ->
  (App.apiKeySelected s' = true <->
   exists open u,
     aistudio ?. @App.openSelectKey World = Some open /\ open w = (inr u, w')) /\
  (App.apiKeySelected s' = true ->
   App.error s' = None /\ App.render s' <> App.render s) /\
  (App.apiKeySelected s' = false -> s' = s) /\
  evs = [].
Proof.
  intros A H. unfold App.handleSelectKey in H.
  destruct (aistudio ?. @App.openSelectKey World) as [open|].
  - unfold bind, App.settle, App.set in H. cbn [fst snd] in H.
    destruct (open w) as [[e|[]] w1] eqn:O; cbn [fst snd app] in H;
      inversion H; subst; clear H.
    + rewrite A. repeat split; try discriminate.
      intros (open' & u & E & O'). inversion E; subst. rewrite O in O'. discriminate.
    + repeat split; try discriminate.
      * intros _. exists open, tt. split; [reflexivity|exact O].
      * unfold App.render. cbn. rewrite A. cbn. discriminate.
  - inversion H; subst; clear H. rewrite A. repeat split; try discriminate.
    intros (open' & u & E & _). discriminate E.
Qed.

(** X18. A page without [aistudio] and without a key: [checkApiKey] lets the
    page in, the first run sends it to the key screen, and [handleSelectKey]
    cannot bring it back. *)
Theorem stuck_without_aistudio (fuel : nat) (API_KEY : option string)
  (aistudio : option (App.AiStudio World)) (s : App.State) (w : World)
  (file : File) (input : string * string) (w1 : World) :
  aistudio ?. @App.hasSelectedApiKey World = None ->
  aistudio ?. @App.openSelectKey World = None ->
  JS.truthy API_KEY = None ->
  App.prompt s <> EmptyString ->
  App.mediaFile s = Some file ->
  App.inputReady helpers s file w input w1 ->
  exists s1,
    App.checkApiKey aistudio (s, w) =
      (Resolved tt, (App.setApiKeySelected true s, w), []) /\
    App.handleGenerateClick remote helpers fuel API_KEY
      (App.setApiKeySelected true s, w) = (Resolved tt, (s1, w1), []) /\
    App.render s1 = App.KeyScreen (Some App.errApiKey) /\
    App.handleSelectKey aistudio (s1, w1) = (Resolved tt, (s1, w1), []).
Proof.
  intros A1 A2 Hk Hp Hf R.
  destruct (@missing_key_on_page_aux fuel API_KEY (App.setApiKeySelected true s)
              w file input w1 Hk Hp Hf R) as (s1 & H1 & H2).
  exists s1. unfold App.checkApiKey, App.handleSelectKey. rewrite A1, A2.
  repeat split; assumption.
Qed.

End PageFacts.

(** ** The further properties on the scripted service and page *)

Lemma waiting_time_witness :
  totalWait (snd (generateVideoFromImage Scripted.remote 5 Scripted.key
                    (Scripted.request long) Scripted.longWorld)) = 63000%Z.
Proof.
  exact (proj1 (waiting_time Scripted.remote 5 Scripted.key (Scripted.request long)
                  Scripted.longWorld (out := Resolved "blob:bytes")
                  (w' := Scripted.exhausted) eq_refl)).
Defined.

Lemma download_all_or_nothing_witness :
  fetchAndCreateUrl Scripted.remote "https://v/1?alt=media" "k"
    ScriptedPage.refusingWorld =
    (Rejected (newError "Failed to download video: Forbidden"), Scripted.exhausted,
     [Fetch "https://v/1?alt=media&key=k"
        (inr {| ok := false; statusText := "Forbidden" |})]) /\
  bodyReads [Fetch "https://v/1?alt=media&key=k"
               (inr {| ok := false; statusText := "Forbidden" |})] = [].
Proof.
  split; [reflexivity|].
  exact (proj1 (proj2 (proj2 (proj2 (download_all_or_nothing Scripted.remote
                                       "https://v/1?alt=media" "k"
                                       ScriptedPage.refusingWorld
                                       (out := Rejected (newError "Failed to download video: Forbidden"))
                                       (w' := Scripted.exhausted) eq_refl))
                        {| ok := false; statusText := "Forbidden" |}
                        Scripted.exhausted eq_refl eq_refl))).
Defined.

Lemma one_key_per_run_witness :
  JS.truthy Scripted.key = Some "k" /\
  Forall (fun c => c = {| clientApiKey := "k" |})
    (clients (snd (generateVideoFromImage Scripted.remote 5 Scripted.key
                     (Scripted.request long) Scripted.longWorld))).
Proof.
  split; [reflexivity|].
  exact (proj1 (one_key_per_run Scripted.remote 5 Scripted.key (Scripted.request long)
                  Scripted.longWorld (out := Resolved "blob:bytes")
                  (w' := Scripted.exhausted) eq_refl eq_refl)).
Defined.

Lemma video_without_link_witness :
  JS.truthy (uri ScriptedPage.linklessVideo) = None /\
  submissions (snd (generateVideoFromImage Scripted.remote 0 Scripted.key
                      (Scripted.request long) ScriptedPage.linklessWorld)) =
    [initialRequest (Scripted.request long);
     extensionRequest (Scripted.request long) ScriptedPage.linklessVideo].
Proof.
  split; [reflexivity|].
  refine (video_without_link (remote := Scripted.remote) (apiKey := "k") Scripted.key
            (p := Scripted.request long) (w := ScriptedPage.linklessWorld)
            (op1 := Scripted.finished "op1" (Some ScriptedPage.linklessVideo))
            (loop1 := [])
            (completed1 := Scripted.finished "op1" (Some ScriptedPage.linklessVideo))
            (w1 := Scripted.exhausted) (v := ScriptedPage.linklessVideo)
            eq_refl _ eq_refl eq_refl (fuel := 0)
            (out := fst (fst (generateVideoFromImage Scripted.remote 0 Scripted.key
                                (Scripted.request long) ScriptedPage.linklessWorld)))
            (w' := snd (fst (generateVideoFromImage Scripted.remote 0 Scripted.key
                               (Scripted.request long) ScriptedPage.linklessWorld)))
            (le_n 0) eq_refl).
  exists Scripted.exhausted. split; [reflexivity|]. apply polling_done. reflexivity.
Defined.

Lemma generate_guard_witness :
  App.handleGenerateClick Scripted.remote ScriptedPage.helpers 5 Scripted.key
    (App.setMediaFile None ScriptedPage.start, Scripted.shortWorld) =
    (Resolved tt,
     (App.setError (Some App.errNoInput) (App.setMediaFile None ScriptedPage.start),
      Scripted.shortWorld), []).
Proof.
  apply (proj1 (generate_guard Scripted.remote ScriptedPage.helpers 5 Scripted.key
                  (App.setMediaFile None ScriptedPage.start) Scripted.shortWorld)).
  right. reflexivity.
Defined.

Lemma loading_flag_witness :
  App.prompt ScriptedPage.start <> EmptyString /\
  App.isLoading
    (fst (snd (fst (App.handleGenerateClick Scripted.remote ScriptedPage.helpers 1
                      Scripted.key (ScriptedPage.start, Scripted.shortWorld))))) = true.
Proof.
  split; [discriminate|].
  refine (proj1 (proj1 (loading_flag Scripted.remote ScriptedPage.helpers 1 Scripted.key
                          ScriptedPage.start Scripted.shortWorld
                          (file := ScriptedPage.photo) (out := Pending)
                          (w' := snd (snd (fst (App.handleGenerateClick Scripted.remote
                                                  ScriptedPage.helpers 1 Scripted.key
                                                  (ScriptedPage.start, Scripted.shortWorld)))))
                          _ eq_refl eq_refl)) eq_refl).
  discriminate.
Defined.

Lemma video_or_message_witness :
  App.prompt ScriptedPage.start <> EmptyString /\
  ((exists url,
      App.generatedVideoUrl
        (fst (snd (fst (App.handleGenerateClick Scripted.remote ScriptedPage.helpers 5
                          Scripted.key (ScriptedPage.start, Scripted.shortWorld))))) =
        Some url /\
      App.error
        (fst (snd (fst (App.handleGenerateClick Scripted.remote ScriptedPage.helpers 5
                          Scripted.key (ScriptedPage.start, Scripted.shortWorld))))) =
        None) \/
   exists msg,
     App.error
       (fst (snd (fst (App.handleGenerateClick Scripted.remote ScriptedPage.helpers 5
                         Scripted.key (ScriptedPage.start, Scripted.shortWorld))))) =
       Some msg).
Proof.
  assert (NE : App.prompt ScriptedPage.start <> EmptyString) by discriminate.
  split; [exact NE|].
  destruct (video_or_message Scripted.remote ScriptedPage.helpers 5 Scripted.key
              ScriptedPage.start Scripted.shortWorld (file := ScriptedPage.photo)
              (out := Resolved tt) (w' := Scripted.exhausted) NE eq_refl eq_refl)
    as [(url & U & E & _)|(_ & msg & M & _)].
  - left. exists url. split; [exact U|exact E].
  - right. exists msg. exact M.
Defined.

Lemma missing_key_on_page_witness :
  JS.truthy None = None /\
  exists s',
    App.handleGenerateClick Scripted.remote ScriptedPage.helpers 5 None
      (ScriptedPage.start, Scripted.shortWorld) =
      (Resolved tt, (s', Scripted.shortWorld), []) /\
    App.render s' = App.KeyScreen (Some App.errApiKey).
Proof.
  split; [reflexivity|].
  assert (NE : App.prompt ScriptedPage.start <> EmptyString) by discriminate.
  destruct (missing_key_on_page Scripted.remote ScriptedPage.helpers 5 None
              ScriptedPage.start Scripted.shortWorld (file := ScriptedPage.photo)
              ("aGVsbG8=", "image/png") Scripted.shortWorld NE eq_refl eq_refl
              (conj eq_refl eq_refl))
    as (s' & H1 & H2 & _).
  exists s'. split; [exact H1|exact H2].
Defined.

Lemma classified_error_on_page_witness :
  kind (classify (newError "no reply scripted")) = Unknown /\
  exists s',
    App.handleGenerateClick Scripted.remote ScriptedPage.helpers 5 Scripted.key
      (ScriptedPage.start, Scripted.exhausted) =
      (Resolved tt, (s', Scripted.exhausted),
       snd (generateVideoFromImage Scripted.remote 5 Scripted.key
              (App.paramsOf ScriptedPage.start ("aGVsbG8=", "image/png"))
              Scripted.exhausted)) /\
    App.error s' = Some "no reply scripted".
Proof.
  split; [reflexivity|].
  assert (NE : App.prompt ScriptedPage.start <> EmptyString) by discriminate.
  destruct (classified_error_on_page Scripted.remote ScriptedPage.helpers 5 Scripted.key
              ScriptedPage.start Scripted.exhausted (file := ScriptedPage.photo)
              ("aGVsbG8=", "image/png") Scripted.exhausted
              (newError "no reply scripted") (w2 := Scripted.exhausted)
              NE eq_refl (conj eq_refl eq_refl) eq_refl)
    as (s' & H1 & _ & _ & H2).
  exists s'. split; [exact H1|exact (proj1 H2)].
Defined.

Lemma reader_error_not_shown_witness :
  message (Error None) = None /\
  exists s',
    App.handleGenerateClick Scripted.remote ScriptedPage.failingHelpers 5 Scripted.key
      (ScriptedPage.start, Scripted.shortWorld) =
      (Rejected App.typeErrorIncludes, (s', Scripted.shortWorld), []) /\
    App.error s' = None.
Proof.
  split; [reflexivity|].
  assert (NE : App.prompt ScriptedPage.start <> EmptyString) by discriminate.
  destruct (reader_error_not_shown Scripted.remote ScriptedPage.failingHelpers 5
              Scripted.key ScriptedPage.start Scripted.shortWorld
              (file := ScriptedPage.photo) (e := Error None)
              (w1 := Scripted.shortWorld) NE eq_refl eq_refl eq_refl eq_refl)
    as (s' & H1 & H2 & _).
  exists s'. split; [exact H1|exact H2].
Defined.

Lemma file_change_kinds_witness :
  App.mediaFile
    (fst (snd (fst (App.handleFileChange Scripted.remote (Some ScriptedPage.notes)
                      (ScriptedPage.start, Scripted.shortWorld))))) =
    Some ScriptedPage.notes.
Proof.
  exact (proj1 (proj2 (file_change_kinds Scripted.remote ScriptedPage.notes
                         ScriptedPage.start Scripted.shortWorld
                         (out := Resolved tt) (w' := Scripted.shortWorld)
                         (evs := []) eq_refl))).
Defined.

Lemma unsupported_file_then_generate_witness :
  App.prompt ScriptedPage.start <> EmptyString /\
  exists s1 s2,
    App.handleFileChange Scripted.remote (Some ScriptedPage.notes)
      (ScriptedPage.start, Scripted.shortWorld) =
      (Resolved tt, (s1, Scripted.shortWorld), []) /\
    App.handleGenerateClick Scripted.remote ScriptedPage.helpers 5 Scripted.key
      (s1, Scripted.shortWorld) = (Resolved tt, (s2, Scripted.shortWorld), []) /\
    App.error s2 = Some App.errInvalidMediaType.
Proof.
  assert (NE : App.prompt ScriptedPage.start <> EmptyString) by discriminate.
  split; [exact NE|].
  destruct (unsupported_file_then_generate Scripted.remote ScriptedPage.helpers 5
              Scripted.key ScriptedPage.notes ScriptedPage.start Scripted.shortWorld
              NE eq_refl eq_refl)
    as (s1 & s2 & H1 & _ & H2 & H3 & _).
  exists s1, s2. split; [exact H1|]. split; [exact H2|exact H3].
Defined.

Lemma requests_carry_page_input_witness :
  App.prompt ScriptedPage.start <> EmptyString /\
  exists first,
    nth_error
      (submissions
         (snd (App.handleGenerateClick Scripted.remote ScriptedPage.helpers 5
                 Scripted.key (ScriptedPage.start, Scripted.shortWorld)))) 0 =
      Some first /\
    exists input,
      requestImage first = Some {| imageBytes := fst input; mimeType := snd input |} /\
      snd input = "image/png".
Proof.
  assert (NE : App.prompt ScriptedPage.start <> EmptyString) by discriminate.
  split; [exact NE|].
  exists (initialRequest (App.paramsOf ScriptedPage.start ("aGVsbG8=", "image/png"))).
  split; [reflexivity|].
  destruct (proj1 (proj2 (requests_carry_page_input Scripted.remote
                            ScriptedPage.helpers 5 Scripted.key ScriptedPage.start
                            Scripted.shortWorld (file := ScriptedPage.photo)
                            (out := Resolved tt) (w' := Scripted.exhausted)
                            (s' := fst (snd (fst (App.handleGenerateClick
                                                    Scripted.remote
                                                    ScriptedPage.helpers 5
                                                    Scripted.key
                                                    (ScriptedPage.start,
                                                     Scripted.shortWorld)))))
                            NE eq_refl eq_refl))
              (initialRequest (App.paramsOf ScriptedPage.start
                                 ("aGVsbG8=", "image/png"))) eq_refl)
    as (input & w1 & _ & T & _ & _ & I & _).
  exists input. split; [exact I|]. exact (T eq_refl).
Defined.

Lemma key_screen_exit_witness :
  App.apiKeySelected (App.setApiKeySelected false ScriptedPage.start) = false /\
  snd (App.handleSelectKey None
         (App.setApiKeySelected false ScriptedPage.start, Scripted.shortWorld)) = [].
Proof.
  split; [reflexivity|].
  exact (proj2 (proj2 (proj2 (key_screen_exit None
                                (App.setApiKeySelected false ScriptedPage.start)
                                Scripted.shortWorld (out := Resolved tt)
                                (s' := App.setApiKeySelected false ScriptedPage.start)
                                (w' := Scripted.shortWorld) eq_refl eq_refl)))).
Defined.

Lemma stuck_without_aistudio_witness :
  JS.truthy None = None /\
  exists s1,
    App.handleGenerateClick Scripted.remote ScriptedPage.helpers 5 None
      (App.setApiKeySelected true ScriptedPage.start, Scripted.shortWorld) =
      (Resolved tt, (s1, Scripted.shortWorld), []) /\
    App.render s1 = App.KeyScreen (Some App.errApiKey) /\
    App.handleSelectKey None (s1, Scripted.shortWorld) =
      (Resolved tt, (s1, Scripted.shortWorld), []).
Proof.
  split; [reflexivity|].
  assert (NE : App.prompt ScriptedPage.start <> EmptyString) by discriminate.
  destruct (stuck_without_aistudio Scripted.remote ScriptedPage.helpers 5 None None
              ScriptedPage.start Scripted.shortWorld (file := ScriptedPage.photo)
              ("aGVsbG8=", "image/png") Scripted.shortWorld
              eq_refl eq_refl eq_refl NE eq_refl (conj eq_refl eq_refl))
    as (s1 & _ & H2 & H3 & H4).
  exists s1. split; [exact H2|]. split; [exact H3|exact H4].
Defined.
